(** * SecondThought: the decision lifecycle of [App.tsx], [types.ts] and
    [services/storage.ts], embedded in Rocq.

    Conventions of the embedding.
    - JavaScript numbers that the program handles as integers (timestamps
      in milliseconds, durations in minutes) are values of [Z].  The one
      place where the program divides, the progress of the waiting screen,
      uses [jsnum] below.
    - JavaScript strings are values of [string]; a character stands for a
      UTF-16 code unit below 256.
    - [Date.now()] and [crypto.randomUUID()] are inputs of the operation
      that calls them, one argument for every call.
    - React state is threaded explicitly: an event handler is a function
      from the state it closes over to the state after its updates. *)

From Stdlib Require Import ZArith QArith Lqa String Ascii List Lia.
From Stdlib Require Import Decimal DecimalFacts DecimalZ DecimalString.
From stdpp Require Import gmap strings.

Local Open Scope Z_scope.
Local Open Scope string_scope.

(** ** types.ts *)

Inductive DecisionType := SHOPPING | MESSAGE | WORK | FEELING | OTHER.

Inductive DecisionStatus := DRAFT | WAITING | COMPLETED | CANCELLED | SNOOZED.

Record Decision := mkDecision {
  id : string;
  type : DecisionType;
  text : string;
  reflectionText : option string;
  startTime : Z;
  durationMinutes : Z;
  endTime : Z;
  status : DecisionStatus;
  createdAt : Z;
  finalNote : option string
}.

(** Object spread with overrides, [{ ...d, field: v }]. *)
Definition with_type (d : Decision) (t : DecisionType) : Decision :=
  mkDecision (id d) t (text d) (reflectionText d) (startTime d)
    (durationMinutes d) (endTime d) (status d) (createdAt d) (finalNote d).

Definition with_text (d : Decision) (s : string) : Decision :=
  mkDecision (id d) (type d) s (reflectionText d) (startTime d)
    (durationMinutes d) (endTime d) (status d) (createdAt d) (finalNote d).

Definition with_durationMinutes (d : Decision) (m : Z) : Decision :=
  mkDecision (id d) (type d) (text d) (reflectionText d) (startTime d)
    m (endTime d) (status d) (createdAt d) (finalNote d).

Definition with_endTime (d : Decision) (t : Z) : Decision :=
  mkDecision (id d) (type d) (text d) (reflectionText d) (startTime d)
    (durationMinutes d) t (status d) (createdAt d) (finalNote d).

(** ** JSON, as far as [JSON.stringify] and [JSON.parse] meet a Decision *)

Module Json.

Definition dquote : ascii := "034"%char.
Definition backslash : ascii := "092"%char.

(** A property value of a stored record: a string or an integer number. *)
Inductive jsval :=
| JString (s : string)
| JNumber (n : Z).

(** An object literal: its own properties in insertion order. *)
Definition jsobject : Type := list (string * jsval).

(** Property read [o[k]]; when a key was parsed twice the later one wins. *)
Fixpoint get (o : jsobject) (k : string) : option jsval :=
  match o with
  | [] => None
  | (k', v) :: o' =>
      match get o' k with
      | Some w => Some w
      | None => if String.eqb k' k then Some v else None
      end
  end.

Definition hex_digit (n : N) : ascii :=
  ascii_of_N (if (n <? 10)%N then 48 + n else 87 + n).

(** QuoteJSONString, one code unit: the two-character escapes, [\u00xx]
    for the other control characters, the unit itself otherwise. *)
Definition escape_char (c : ascii) : string :=
  let n := N_of_ascii c in
  let esc (e : ascii) := String backslash (String e EmptyString) in
  if (n =? 8)%N then esc "b"%char
  else if (n =? 9)%N then esc "t"%char
  else if (n =? 10)%N then esc "n"%char
  else if (n =? 12)%N then esc "f"%char
  else if (n =? 13)%N then esc "r"%char
  else if (n =? 34)%N then esc dquote
  else if (n =? 92)%N then esc backslash
  else if (n <? 32)%N then
    String backslash (String "u" (String "0" (String "0"
      (String (hex_digit (n / 16)) (String (hex_digit (n mod 16)) EmptyString)))))
  else String c EmptyString.

Fixpoint escape (s : string) : string :=
  match s with
  | EmptyString => EmptyString
  | String c s' => escape_char c +:+ escape s'
  end.

Definition quote (s : string) : string :=
  String dquote (escape s +:+ String dquote EmptyString).

(** Number::toString on an integer: decimal digits, a minus sign when
    negative. *)
Definition number_to_string (z : Z) : string :=
  match Z.to_int z with
  | Pos u => DecimalString.NilEmpty.string_of_uint u
  | Neg u => String "-" (DecimalString.NilEmpty.string_of_uint u)
  end.

Definition stringify_value (v : jsval) : string :=
  match v with
  | JString s => quote s
  | JNumber n => number_to_string n
  end.

Definition stringify_member (m : string * jsval) : string :=
  quote (fst m) +:+ String ":" (stringify_value (snd m)).

Fixpoint stringify_members (o : jsobject) : string :=
  match o with
  | [] => EmptyString
  | m :: o' =>
      match o' with
      | [] => stringify_member m
      | _ :: _ => stringify_member m +:+ String "," (stringify_members o')
      end
  end.

Definition stringify_object (o : jsobject) : string :=
  String "{" (stringify_members o +:+ String "}" EmptyString).

(** *** Parsing *)

Definition hex_value (c : ascii) : option N :=
  let n := N_of_ascii c in
  if ((48 <=? n) && (n <=? 57))%N then Some (n - 48)%N
  else if ((97 <=? n) && (n <=? 102))%N then Some (n - 87)%N
  else if ((65 <=? n) && (n <=? 70))%N then Some (n - 55)%N
  else None.

Definition hex4 (a b c d : ascii) : option N :=
  match hex_value a, hex_value b, hex_value c, hex_value d with
  | Some x, Some y, Some z, Some w => Some (((x * 16 + y) * 16 + z) * 16 + w)%N
  | _, _, _, _ => None
  end.

Definition simple_escape (e : ascii) : option ascii :=
  let n := N_of_ascii e in
  if (n =? 34)%N then Some dquote
  else if (n =? 92)%N then Some backslash
  else if (n =? 47)%N then Some "/"%char
  else if (n =? 98)%N then Some "008"%char
  else if (n =? 102)%N then Some "012"%char
  else if (n =? 110)%N then Some "010"%char
  else if (n =? 114)%N then Some "013"%char
  else if (n =? 116)%N then Some "009"%char
  else None.

Definition cons_char (c : ascii) (r : option (string * string))
  : option (string * string) :=
  match r with
  | Some (s, rest) => Some (String c s, rest)
  | None => None
  end.

(** The characters of a string literal after its opening quote, up to and
    including the closing quote; the result is the decoded string and
    the input that follows.  [None] is a SyntaxError, or a [\u] escape
    of a code unit above 255. *)
Fixpoint parse_chars (s : string) : option (string * string) :=
  match s with
  | EmptyString => None
  | String c rest =>
      if Ascii.eqb c dquote then Some (EmptyString, rest)
      else if Ascii.eqb c backslash then
        match rest with
        | EmptyString => None
        | String e rest1 =>
            if Ascii.eqb e "u"%char then
              match rest1 with
              | String h1 (String h2 (String h3 (String h4 rest2))) =>
                  match hex4 h1 h2 h3 h4 with
                  | Some n =>
                      if (n <? 256)%N
                      then cons_char (ascii_of_N n) (parse_chars rest2)
                      else None
                  | None => None
                  end
              | _ => None
              end
            else
              match simple_escape e with
              | Some d => cons_char d (parse_chars rest1)
              | None => None
              end
        end
      else if (N_of_ascii c <? 32)%N then None
      else cons_char c (parse_chars rest)
  end.

Definition digit_of (c : ascii) : option (uint -> uint) :=
  let n := N_of_ascii c in
  if (n =? 48)%N then Some D0 else if (n =? 49)%N then Some D1
  else if (n =? 50)%N then Some D2 else if (n =? 51)%N then Some D3
  else if (n =? 52)%N then Some D4 else if (n =? 53)%N then Some D5
  else if (n =? 54)%N then Some D6 else if (n =? 55)%N then Some D7
  else if (n =? 56)%N then Some D8 else if (n =? 57)%N then Some D9
  else None.

Fixpoint parse_digits (s : string) : uint * string :=
  match s with
  | EmptyString => (Nil, EmptyString)
  | String c rest =>
      match digit_of c with
      | Some k => let (u, r) := parse_digits rest in (k u, r)
      | None => (Nil, s)
      end
  end.

(** An integer literal: an optional minus sign and digits without a
    superfluous leading zero. *)
Definition parse_number (s : string) : option (Z * string) :=
  let (neg, s1) :=
    match s with
    | String c r => if Ascii.eqb c "-"%char then (true, r) else (false, s)
    | EmptyString => (false, s)
    end in
  let (u, rest) := parse_digits s1 in
  match u with
  | Nil => None
  | _ =>
      if uint_beq (unorm u) u
      then Some (Z.of_int (if neg then Neg u else Pos u), rest)
      else None
  end.

Definition parse_value (s : string) : option (jsval * string) :=
  match s with
  | EmptyString => None
  | String c rest =>
      if Ascii.eqb c dquote then
        match parse_chars rest with
        | Some (v, r) => Some (JString v, r)
        | None => None
        end
      else
        match parse_number s with
        | Some (n, r) => Some (JNumber n, r)
        | None => None
        end
  end.

Definition parse_member (s : string) : option ((string * jsval) * string) :=
  match s with
  | EmptyString => None
  | String c rest =>
      if Ascii.eqb c dquote then
        match parse_chars rest with
        | Some (k, String colon r) =>
            if Ascii.eqb colon ":"%char then
              match parse_value r with
              | Some (v, r') => Some ((k, v), r')
              | None => None
              end
            else None
        | _ => None
        end
      else None
  end.

(** Members up to the closing brace.  Every member consumes input, so the
    length of the input is fuel enough. *)
Fixpoint parse_members (fuel : nat) (s : string) : option (jsobject * string) :=
  match fuel with
  | O => None
  | S fuel' =>
      match parse_member s with
      | Some (m, String c rest) =>
          if Ascii.eqb c ","%char then
            match parse_members fuel' rest with
            | Some (ms, r) => Some (m :: ms, r)
            | None => None
            end
          else if Ascii.eqb c "}"%char then Some ([m], rest)
          else None
      | _ => None
      end
  end.

(** [JSON.parse] on the text of an object whose property values are
    strings and integers, written without insignificant white space (as
    [JSON.stringify] writes it).  [None]: a SyntaxError, or a text
    outside this fragment. *)
Definition parse_object (s : string) : option jsobject :=
  match s with
  | String c rest =>
      if Ascii.eqb c "{"%char then
        match rest with
        | String c' EmptyString =>
            if Ascii.eqb c' "}"%char then Some [] else None
        | _ =>
            match parse_members (String.length rest) rest with
            | Some (o, EmptyString) => Some o
            | _ => None
            end
        end
      else None
  | EmptyString => None
  end.

End Json.

(** ** JavaScript numbers that need not be integers

    [progress] of the waiting screen is the only such number.  A finite
    value is kept as an exact rational, without the rounding of a double;
    the infinities and NaN that a division by zero produces are kept as
    such. *)

Module JsNum.

Inductive jsnum :=
| Finite (q : Q)
| PosInfinity
| NegInfinity
| NotANumber.

Definition of_Z (z : Z) : jsnum := Finite (inject_Z z).

(** [a / b] on integer operands. *)
Definition div (a b : Z) : jsnum :=
  if (b =? 0)%Z then
    if (0 <? a)%Z then PosInfinity
    else if (a <? 0)%Z then NegInfinity
    else NotANumber
  else Finite (inject_Z a / inject_Z b)%Q.

Definition neg (x : jsnum) : jsnum :=
  match x with
  | Finite q => Finite (- q)%Q
  | PosInfinity => NegInfinity
  | NegInfinity => PosInfinity
  | NotANumber => NotANumber
  end.

(** An infinity times a finite factor. *)
Definition scale_inf (positive : bool) (q : Q) : jsnum :=
  match (q ?= 0)%Q with
  | Eq => NotANumber
  | Gt => if positive then PosInfinity else NegInfinity
  | Lt => if positive then NegInfinity else PosInfinity
  end.

Definition mul (x y : jsnum) : jsnum :=
  match x, y with
  | NotANumber, _ | _, NotANumber => NotANumber
  | Finite a, Finite b => Finite (a * b)%Q
  | PosInfinity, Finite b | Finite b, PosInfinity => scale_inf true b
  | NegInfinity, Finite b | Finite b, NegInfinity => scale_inf false b
  | PosInfinity, PosInfinity | NegInfinity, NegInfinity => PosInfinity
  | PosInfinity, NegInfinity | NegInfinity, PosInfinity => NegInfinity
  end.

Definition add (x y : jsnum) : jsnum :=
  match x, y with
  | NotANumber, _ | _, NotANumber => NotANumber
  | Finite a, Finite b => Finite (a + b)%Q
  | PosInfinity, NegInfinity | NegInfinity, PosInfinity => NotANumber
  | PosInfinity, _ | _, PosInfinity => PosInfinity
  | NegInfinity, _ | _, NegInfinity => NegInfinity
  end.

Definition sub (x y : jsnum) : jsnum := add x (neg y).

(** [x === z] for an integer [z]. *)
Definition equals_Z (x : jsnum) (z : Z) : Prop :=
  match x with
  | Finite q => (q == inject_Z z)%Q
  | _ => False
  end.

End JsNum.

(** ** services/storage.ts *)

Module Storage.

Import Json.

Definition DecisionType_to_string (t : DecisionType) : string :=
  match t with
  | SHOPPING => "SHOPPING"
  | MESSAGE => "MESSAGE"
  | WORK => "WORK"
  | FEELING => "FEELING"
  | OTHER => "OTHER"
  end.

Definition DecisionType_of_string (s : string) : option DecisionType :=
  if String.eqb s "SHOPPING" then Some SHOPPING
  else if String.eqb s "MESSAGE" then Some MESSAGE
  else if String.eqb s "WORK" then Some WORK
  else if String.eqb s "FEELING" then Some FEELING
  else if String.eqb s "OTHER" then Some OTHER
  else None.

Definition DecisionStatus_to_string (t : DecisionStatus) : string :=
  match t with
  | DRAFT => "DRAFT"
  | WAITING => "WAITING"
  | COMPLETED => "COMPLETED"
  | CANCELLED => "CANCELLED"
  | SNOOZED => "SNOOZED"
  end.

Definition DecisionStatus_of_string (s : string) : option DecisionStatus :=
  if String.eqb s "DRAFT" then Some DRAFT
  else if String.eqb s "WAITING" then Some WAITING
  else if String.eqb s "COMPLETED" then Some COMPLETED
  else if String.eqb s "CANCELLED" then Some CANCELLED
  else if String.eqb s "SNOOZED" then Some SNOOZED
  else None.

(** An optional property: absent when it is [undefined]. *)
Definition optional_member (k : string) (v : option string) : jsobject :=
  match v with
  | Some r => [(k, JString r)]
  | None => []
  end.

(** The own properties of a Decision object.  The first eight are in the
    order in which [createDraftDecision] writes them; an optional
    property that is [undefined] is no property, and [JSON.stringify]
    would skip it in any case. *)
Definition decision_to_object (d : Decision) : jsobject :=
  ([ ("id", JString (id d));
     ("type", JString (DecisionType_to_string (type d)));
     ("text", JString (text d));
     ("startTime", JNumber (startTime d));
     ("durationMinutes", JNumber (durationMinutes d));
     ("endTime", JNumber (endTime d));
     ("status", JString (DecisionStatus_to_string (status d)));
     ("createdAt", JNumber (createdAt d)) ]
   ++ optional_member "reflectionText" (reflectionText d)
   ++ optional_member "finalNote" (finalNote d))%list.

Definition get_string (o : jsobject) (k : string) : option string :=
  match get o k with
  | Some (JString s) => Some s
  | _ => None
  end.

Definition get_number (o : jsobject) (k : string) : option Z :=
  match get o k with
  | Some (JNumber n) => Some n
  | _ => None
  end.

Definition get_optional_string (o : jsobject) (k : string)
  : option (option string) :=
  match get o k with
  | None => Some None
  | Some (JString s) => Some (Some s)
  | Some (JNumber _) => None
  end.

(** The parsed object seen through the [Decision] interface.  [None]
    when it does not have the shape the interface declares; the program
    performs no such check, and what it does with such an object is
    outside this model. *)
Definition object_to_decision (o : jsobject) : option Decision :=
  match get_string o "id", get_string o "type", get_string o "text",
        get_optional_string o "reflectionText",
        get_number o "startTime", get_number o "durationMinutes",
        get_number o "endTime", get_string o "status",
        get_number o "createdAt", get_optional_string o "finalNote" with
  | Some i, Some ty, Some tx, Some r, Some st, Some du, Some en, Some s,
    Some cr, Some fn =>
      match DecisionType_of_string ty, DecisionStatus_of_string s with
      | Some ty', Some s' => Some (mkDecision i ty' tx r st du en s' cr fn)
      | _, _ => None
      end
  | _, _, _, _, _, _, _, _, _, _ => None
  end.

Definition JSON_stringify (d : Decision) : string :=
  stringify_object (decision_to_object d).

Definition JSON_parse (s : string) : option Decision :=
  match parse_object s with
  | Some o => object_to_decision o
  | None => None
  end.

Definition STORAGE_KEY : string := "secondthought_active_decision".

(** What [getDecision] gives back: [Returned None] is [null]. *)
Inductive load_result :=
| Returned (r : option Decision)
| Unreadable.

Definition saveDecision (decision : Decision) (localStorage : gmap string string)
  : gmap string string :=
  <[STORAGE_KEY := JSON_stringify decision]> localStorage.

Definition getDecision (localStorage : gmap string string) : load_result :=
  match localStorage !! STORAGE_KEY with
  | None => Returned None
  | Some data =>
      if String.eqb data EmptyString then Returned None
      else match JSON_parse data with
           | Some d => Returned (Some d)
           | None => Unreadable
           end
  end.

Definition clearDecision (localStorage : gmap string string)
  : gmap string string :=
  delete STORAGE_KEY localStorage.

Definition createDraftDecision (uuid : string) (now : Z) : Decision :=
  {| id := uuid;
     type := OTHER;
     text := EmptyString;
     reflectionText := None;
     startTime := 0;
     durationMinutes := 0;
     endTime := 0;
     status := DRAFT;
     createdAt := now;
     finalNote := None |}.

End Storage.

(** ** JavaScript strings: [trim] and truthiness *)

Module JsString.

(** The white space and line terminators among the code units below
    256; [String.prototype.trim] strips them at both ends. *)
Definition is_white_space (c : ascii) : bool :=
  let n := N_of_ascii c in
  (((9 <=? n) && (n <=? 13)) || (n =? 32) || (n =? 160))%N.

Fixpoint trimStart (s : string) : string :=
  match s with
  | EmptyString => EmptyString
  | String c r => if is_white_space c then trimStart r else s
  end.

Fixpoint trimEnd (s : string) : string :=
  match s with
  | EmptyString => EmptyString
  | String c r =>
      match trimEnd r with
      | EmptyString =>
          if is_white_space c then EmptyString else String c EmptyString
      | String c' r' => String c (String c' r')
      end
  end.

Definition trim (s : string) : string := trimEnd (trimStart s).

(** Nothing but white space. *)
Fixpoint blank (s : string) : bool :=
  match s with
  | EmptyString => true
  | String c r => is_white_space c && blank r
  end.

(** A string in a condition: every string but the empty one is truthy. *)
Definition truthy (s : string) : bool := negb (String.eqb s EmptyString).

End JsString.

(** ** App.tsx: the state of [App] and the handlers it hands down *)

Module App.

(** The paths of the hash router. *)
Inductive Path :=
| PathRoot
| PathHowItWorks
| PathType
| PathInput
| PathDelay
| PathReflection
| PathWaiting
| PathResult.

(** A line of the console: [console.log("Finished:", status, note)]. *)
Inductive LogEntry :=
| Finished (status : DecisionStatus) (note : option string).

(** What the handlers read and write: the browser's [localStorage] and
    console, the location of the router, and the three state variables
    of [App]. *)
Record AppState := mkAppState {
  localStorage : gmap string string;
  console : list LogEntry;
  location : Path;
  activeDecision : option Decision;
  draftDecision : Decision;
  isLoading : bool
}.

Definition withLocalStorage (f : gmap string string -> gmap string string)
  (s : AppState) : AppState :=
  mkAppState (f (localStorage s)) (console s) (location s)
    (activeDecision s) (draftDecision s) (isLoading s).

Definition console_log (e : LogEntry) (s : AppState) : AppState :=
  mkAppState (localStorage s) (console s ++ [e])%list (location s)
    (activeDecision s) (draftDecision s) (isLoading s).

Definition navigate (to : Path) (s : AppState) : AppState :=
  mkAppState (localStorage s) (console s) to
    (activeDecision s) (draftDecision s) (isLoading s).

Definition setActiveDecision (a : option Decision) (s : AppState) : AppState :=
  mkAppState (localStorage s) (console s) (location s)
    a (draftDecision s) (isLoading s).

(** [setDraftDecision(prev => f(prev))]. *)
Definition setDraftDecision (f : Decision -> Decision) (s : AppState)
  : AppState :=
  mkAppState (localStorage s) (console s) (location s)
    (activeDecision s) (f (draftDecision s)) (isLoading s).

Definition setIsLoading (b : bool) (s : AppState) : AppState :=
  mkAppState (localStorage s) (console s) (location s)
    (activeDecision s) (draftDecision s) b.

(** The first render: [useState(null)],
    [useState(Storage.createDraftDecision())], [useState(true)], on the
    path the page was opened with. *)
Definition first_render (storage : gmap string string) (hash : Path)
  (uuid : string) (now : Z) : AppState :=
  mkAppState storage [] hash None (Storage.createDraftDecision uuid now) true.

(** The effect that initialises from storage.  [None]: [JSON.parse]
    threw out of [getDecision], and so out of the effect. *)
Definition initialize (s : AppState) : option AppState :=
  match Storage.getDecision (localStorage s) with
  | Storage.Returned (Some saved) =>
      Some (setIsLoading false (setActiveDecision (Some saved) s))
  | Storage.Returned None => Some (setIsLoading false s)
  | Storage.Unreadable => None
  end.

Definition startWaiting (decision : Decision) (s : AppState) : AppState :=
  setActiveDecision (Some decision)
    (withLocalStorage (Storage.saveDecision decision) s).

(** [uuid] and [now] are what [createDraftDecision] draws. *)
Definition handleFinish (status : DecisionStatus) (note : option string)
  (uuid : string) (now : Z) (s : AppState) : AppState :=
  setDraftDecision (fun _ => Storage.createDraftDecision uuid now)
    (setActiveDecision None
       (withLocalStorage Storage.clearDecision
          (console_log (Finished status note) s))).

Definition handleEmergency (now : Z) (s : AppState) : AppState :=
  match activeDecision s with
  | Some a =>
      let updated := with_endTime a now in
      setActiveDecision (Some updated)
        (withLocalStorage (Storage.saveDecision updated) s)
  | None => s
  end.

(** The decision records that the state of the program holds: the
    active one, the draft, and the stored one. *)
Definition records (s : AppState) : list Decision :=
  (match activeDecision s with Some a => [a] | None => [] end ++
   [draftDecision s] ++
   match Storage.getDecision (localStorage s) with
   | Storage.Returned (Some d) => [d]
   | _ => []
   end)%list.

End App.

(** ** App.tsx: the screens that build the draft *)

Module DecisionTypeScreen.

Definition handleSelect (type : DecisionType) (s : App.AppState)
  : App.AppState :=
  App.navigate App.PathInput
    (App.setDraftDecision (fun prev => with_type prev type) s).

End DecisionTypeScreen.

Module DecisionInputScreen.

(** [text] is the state of the text area. *)
Definition handleNext (text : string) (s : App.AppState) : App.AppState :=
  if negb (JsString.truthy (JsString.trim text)) then s
  else App.navigate App.PathDelay
         (App.setDraftDecision (fun prev => with_text prev text) s).

End DecisionInputScreen.

Module CustomDurationPicker.

Inductive Unit := minutes | hours | days.

Record State := mkState {
  value : Z;
  unit : Unit;
  error : option string
}.

Definition initial : State := mkState 1 hours None.

Definition calculateMinutes (st : State) : Z :=
  match unit st with
  | minutes => value st
  | hours => value st * 60
  | days => value st * 24 * 60
  end.

Definition MAX_MINUTES : Z := 7 * 24 * 60.

(** The effect on [totalMinutes], which runs after a render that changed
    it. *)
Definition validate (st : State) : State :=
  let totalMinutes := calculateMinutes st in
  mkState (value st) (unit st)
    (if (totalMinutes >? MAX_MINUTES)%Z
     then Some "Maksimal durasi adalah 1 minggu (7 hari)."
     else if (totalMinutes <? 1)%Z then Some "Durasi minimal 1 menit."
     else None).

(** The number field and the unit buttons: the state update, the render
    and the effect that follows it. *)
Definition setValue (v : Z) (st : State) : State :=
  validate (mkState v (unit st) (error st)).

Definition setUnit (u : Unit) (st : State) : State :=
  validate (mkState (value st) u (error st)).

(** What the user does to the picker before confirming. *)
Inductive Edit :=
| SetValue (v : Z)
| SetUnit (u : Unit).

Definition edit (st : State) (e : Edit) : State :=
  match e with
  | SetValue v => setValue v st
  | SetUnit u => setUnit u st
  end.

Definition getDurationFeedback (st : State) : string :=
  let totalMinutes := calculateMinutes st in
  if (totalMinutes <=? 30)%Z then "Cukup untuk menenangkan nafas."
  else if (totalMinutes <=? 120)%Z then "Bagus untuk meredakan emosi sesaat."
  else if (totalMinutes <=? 24 * 60)%Z
  then "Ideal untuk keputusan belanja atau pesan."
  else "Cocok untuk keputusan besar dalam hidup.".

(** [onSelect] is the prop; the result is what the click does to the
    state that [onSelect] acts on. *)
Definition handleConfirm {A : Type} (onSelect : Z -> A -> A) (st : State)
  : A -> A :=
  match error st with
  | None => onSelect (calculateMinutes st)
  | Some _ => fun a => a
  end.

End CustomDurationPicker.

Module DelaySelectionScreen.

Definition handleSelect (minutes : Z) (s : App.AppState) : App.AppState :=
  App.navigate App.PathReflection
    (App.setDraftDecision (fun prev => with_durationMinutes prev minutes) s).

(** The four tiles of the screen. *)
Definition presets : list Z := [60; 480; 1440; 5].

(** The Simpan button of the picker that the screen opens. *)
Definition confirmCustom (picker : CustomDurationPicker.State)
  (s : App.AppState) : App.AppState :=
  CustomDurationPicker.handleConfirm handleSelect picker s.

End DelaySelectionScreen.

Module ReflectionScreen.

(** [reflection] is the state of the text area; [now1] and [now2] are
    the two readings of [Date.now()], in the order of the object
    literal.  The request for the notification permission that may come
    first changes nothing that the handler reads. *)
Definition handleStart (reflection : string) (now1 now2 : Z)
  (s : App.AppState) : App.AppState :=
  let draft := App.draftDecision s in
  let finalDecision :=
    {| id := id draft;
       type := type draft;
       text := text draft;
       reflectionText := Some reflection;
       startTime := now1;
       durationMinutes := durationMinutes draft;
       endTime := now2 + durationMinutes draft * 60 * 1000;
       status := WAITING;
       createdAt := createdAt draft;
       finalNote := finalNote draft |} in
  App.navigate App.PathWaiting (App.startWaiting finalDecision s).

End ReflectionScreen.

(** ** App.tsx: the waiting screen *)

Module WaitingScreen.

Record TimeLeft := mkTimeLeft { h : Z; m : Z; s : Z }.

(** What the callback of a running interval closes over: the values of
    the render whose effect started it. *)
Record Interval := mkInterval {
  seen_decision : Decision;
  seen_notified : bool
}.

(** The prop [decision], the three state variables, and the interval
    that is running, if one is. *)
Record State := mkState {
  decision : option Decision;
  timeLeft : TimeLeft;
  progress : JsNum.jsnum;
  notified : bool;
  interval : option Interval
}.

(** What a tick does beyond the state of the screen. *)
Inductive Effect :=
| ShowNotification
| PlayAlarm
| OnComplete.

(** The timer effect, run after a render that changed one of
    [decision], [onComplete], [notified]: the interval of the render
    before is cleared by its cleanup, and a new one is started unless
    [decision] is null. *)
Definition useEffect (st : State) : State :=
  mkState (decision st) (timeLeft st) (progress st) (notified st)
    (match decision st with
     | Some d => Some (mkInterval d (notified st))
     | None => None
     end).

Definition mount (decision : option Decision) : State :=
  useEffect
    (mkState decision (mkTimeLeft 0 0 0) (JsNum.of_Z 0) false None).

Definition clearInterval (st : State) : State :=
  mkState (decision st) (timeLeft st) (progress st) (notified st) None.

(** [setNotified(true)]: a render and its effect follow when the state
    changes. *)
Definition setNotified_true (st : State) : State :=
  if notified st then st
  else useEffect
         (mkState (decision st) (timeLeft st) (progress st) true (interval st)).

(** [100 - (diff / totalDuration) * 100]. *)
Definition progress_of (diff totalDuration : Z) : JsNum.jsnum :=
  JsNum.sub (JsNum.of_Z 100)
    (JsNum.mul (JsNum.div diff totalDuration) (JsNum.of_Z 100)).

(** On a positive [diff], [Math.floor] of a quotient by a positive
    constant is [Z.div], and [%] is [Z.rem]. *)
Definition timeLeft_of (diff : Z) : TimeLeft :=
  mkTimeLeft (diff / (1000 * 60 * 60))
    (Z.rem diff (1000 * 60 * 60) / (1000 * 60))
    (Z.rem diff (1000 * 60) / 1000).

(** The callback of the interval, when the clock reads [now] and
    [granted] tells whether [Notification.permission] is ['granted'].
    Nothing happens when no interval is running. *)
Definition tick (now : Z) (granted : bool) (st : State)
  : State * list Effect :=
  match interval st with
  | None => (st, [])
  | Some c =>
      let diff := (endTime (seen_decision c) - now)%Z in
      let totalDuration :=
        (endTime (seen_decision c) - startTime (seen_decision c))%Z in
      if (diff <=? 0)%Z then
        if negb (seen_notified c) then
          (setNotified_true (clearInterval st),
           ((if granted then [ShowNotification] else []) ++
            [PlayAlarm; OnComplete])%list)
        else (clearInterval st, [OnComplete])
      else
        (mkState (decision st) (timeLeft_of diff)
           (progress_of diff totalDuration) (notified st) (interval st),
         [])
  end.

(** What happens to a mounted screen: its interval fires, or its parent
    renders it again, with a new [onComplete] and the current
    [activeDecision]. *)
Inductive Event :=
| Tick (now : Z) (granted : bool)
| Rerender (decision : option Decision).

Definition step (st : State) (e : Event) : State * list Effect :=
  match e with
  | Tick now granted => tick now granted st
  | Rerender d =>
      (useEffect
         (mkState d (timeLeft st) (progress st) (notified st) (interval st)),
       [])
  end.

Fixpoint run (st : State) (es : list Event) : State * list Effect :=
  match es with
  | [] => (st, [])
  | e :: es' =>
      let (st1, out1) := step st e in
      let (st2, out2) := run st1 es' in
      (st2, (out1 ++ out2)%list)
  end.

Definition is_alarm (e : Effect) : bool :=
  match e with
  | PlayAlarm => true
  | _ => false
  end.

Definition is_notification (e : Effect) : bool :=
  match e with
  | ShowNotification => true
  | _ => false
  end.

Definition alarms (out : list Effect) : nat :=
  List.length (List.filter is_alarm out).

Definition notifications (out : list Effect) : nat :=
  List.length (List.filter is_notification out).

(** The route [/waiting] over the time in which one decision is active:
    the screen is mounted when the location becomes [/waiting] and
    unmounted when it leaves; every mount starts from [useState(false)]
    for [notified]. *)
Inductive RouteEvent :=
| Enter
| Leave
| Screen (e : Event).

Fixpoint visits (d : Decision) (screen : option State) (es : list RouteEvent)
  : list Effect :=
  match es with
  | [] => []
  | Enter :: es' => visits d (Some (mount (Some d))) es'
  | Leave :: es' => visits d None es'
  | Screen e :: es' =>
      match screen with
      | Some st =>
          let (st', out) := step st e in (out ++ visits d (Some st') es')%list
      | None => visits d None es'
      end
  end.

(** The two conditions a mounted screen can be in: the flag unset and
    unseen by the running interval, or set and seen by it. *)
Definition flag_unset (st : State) : Prop :=
  notified st = false
  /\ forall c : Interval, interval st = Some c -> seen_notified c = false.

Definition flag_set (st : State) : Prop :=
  notified st = true
  /\ forall c : Interval, interval st = Some c -> seen_notified c = true.

Definition is_enter (e : RouteEvent) : bool :=
  match e with
  | Enter => true
  | _ => false
  end.



End WaitingScreen.

(** ** App.tsx: the result screen *)

Module ResultScreen.

Inductive Step := selection | feedback | appreciation.

Record State := mkState {
  step : Step;
  selectedAction : option DecisionStatus;
  note : string
}.

Definition initial : State := mkState selection None EmptyString.

Definition handleSelection (action : DecisionStatus) (st : State) : State :=
  mkState feedback (Some action) (note st).

Definition setNote (text : string) (st : State) : State :=
  mkState (step st) (selectedAction st) text.

Definition submitFeedback (st : State) : State :=
  match selectedAction st with
  | Some _ => mkState appreciation (selectedAction st) (note st)
  | None => st
  end.

(** [onFinish] is the prop; the result is what the click does to the
    state that [onFinish] acts on. *)
Definition handleFinalClose {A : Type}
  (onFinish : DecisionStatus -> option string -> A -> A) (st : State)
  : A -> A :=
  match selectedAction st with
  | Some action => onFinish action (Some (note st))
  | None => fun a => a
  end.




(** The quoted reason of the appreciation text, or the stock word. *)
Definition reasonSnippet (st : State) : string :=
  if JsString.truthy (JsString.trim (note st))
  then String Json.dquote
         (JsString.trim (note st) +:+ String Json.dquote EmptyString)
  else "alasanmu".

End ResultScreen.

(** ** App.tsx: the routes *)

Module AnimatedRoutes.

(** What a route renders. *)
Inductive Element :=
| LandingScreen
| HowItWorksScreen
| DecisionTypeScreen
| DecisionInputScreen (draft : Decision)
| DelaySelectionScreen
| ReflectionScreen (draft : Decision)
| WaitingScreen (decision : Decision)
| ResultScreen (decisionText : string)
| Navigate (to : App.Path).

Definition is_WAITING (st : DecisionStatus) : bool :=
  match st with
  | WAITING => true
  | _ => false
  end.

(** The element of the route that matches the location; [now] is the
    reading of [Date.now()] in the root route. *)
Definition element (now : Z) (s : App.AppState) : Element :=
  match App.location s with
  | App.PathRoot =>
      match App.activeDecision s with
      | Some a =>
          if is_WAITING (status a) then
            if (now >=? endTime a)%Z then Navigate App.PathResult
            else Navigate App.PathWaiting
          else LandingScreen
      | None => LandingScreen
      end
  | App.PathHowItWorks => HowItWorksScreen
  | App.PathType => DecisionTypeScreen
  | App.PathInput => DecisionInputScreen (App.draftDecision s)
  | App.PathDelay => DelaySelectionScreen
  | App.PathReflection => ReflectionScreen (App.draftDecision s)
  | App.PathWaiting =>
      match App.activeDecision s with
      | Some a => WaitingScreen a
      | None => Navigate App.PathRoot
      end
  | App.PathResult =>
      match App.activeDecision s with
      | Some a => ResultScreen (text a)
      | None => Navigate App.PathRoot
      end
  end.

(** A render of the mounted router and the effect of a [Navigate]
    element, if that is what the route gives.  [App] mounts the router
    only when it is not loading: see [AppView.render]. *)
Definition render (now : Z) (s : App.AppState) : App.AppState :=
  match element now s with
  | Navigate to => App.navigate to s
  | _ => s
  end.

(** [onComplete] of the waiting screen:
    [window.location.hash = '#/result']. *)
Definition onComplete (s : App.AppState) : App.AppState :=
  App.navigate App.PathResult s.

(** The Selesai button of the result screen, whose [onFinish] is
    [handleFinish]. *)
Definition finalClose (screen : ResultScreen.State) (uuid : string) (now : Z)
  (s : App.AppState) : App.AppState :=
  ResultScreen.handleFinalClose
    (fun status note => App.handleFinish status note uuid now) screen s.

End AnimatedRoutes.

(** ** App.tsx: what [App] returns *)

Module AppView.

(** The blank [div] while [isLoading] holds, the router with its routes
    afterwards. *)
Inductive View :=
| Loading
| Router (e : AnimatedRoutes.Element).

Definition view (now : Z) (s : App.AppState) : View :=
  if App.isLoading s then Loading
  else Router (AnimatedRoutes.element now s).

(** A render of [App]: while it is loading there is no router and so no
    redirect. *)
Definition render (now : Z) (s : App.AppState) : App.AppState :=
  if App.isLoading s then s else AnimatedRoutes.render now s.

End AppView.

(** ** The program as a whole: what the user and the timer can do *)

Module Session.

(** One thing that happens to the running program, with the clock
    readings and identifiers that it draws. *)
Inductive Action :=
| SelectType (type : DecisionType)
| Next (text : string)
| SelectDelay (minutes : Z)
| ConfirmCustom (picker : CustomDurationPicker.State)
| Start (reflection : string) (now1 now2 : Z)
| Emergency (now : Z)
| Complete
| FinalClose (screen : ResultScreen.State) (uuid : string) (now : Z)
| Render (now : Z)
| GoTo (path : App.Path).

Definition act (s : App.AppState) (a : Action) : App.AppState :=
  match a with
  | SelectType type => DecisionTypeScreen.handleSelect type s
  | Next text => DecisionInputScreen.handleNext text s
  | SelectDelay minutes => DelaySelectionScreen.handleSelect minutes s
  | ConfirmCustom picker => DelaySelectionScreen.confirmCustom picker s
  | Start reflection now1 now2 =>
      ReflectionScreen.handleStart reflection now1 now2 s
  | Emergency now => App.handleEmergency now s
  | Complete => AnimatedRoutes.onComplete s
  | FinalClose screen uuid now => AnimatedRoutes.finalClose screen uuid now s
  | Render now => AppView.render now s
  | GoTo path => App.navigate path s
  end.

Definition run (s : App.AppState) (actions : list Action) : App.AppState :=
  fold_left act actions s.

(** The stored record is the active decision. *)
Definition store_mirrors_state (s : App.AppState) : Prop :=
  Storage.getDecision (App.localStorage s)
  = Storage.Returned (App.activeDecision s).

(** The draft is a DRAFT and the active decision, if there is one, is
    WAITING. *)
Definition statuses_in_place (s : App.AppState) : Prop :=
  status (App.draftDecision s) = DRAFT
  /\ forall a : Decision, App.activeDecision s = Some a -> status a = WAITING.

End Session.

(** * Facts about the embedding *)

(** ** Strings *)

Lemma append_cons (c : ascii) (a b : string) :
  String c a +:+ b = String c (a +:+ b).
Proof. reflexivity. Qed.

Lemma append_nil (b : string) : EmptyString +:+ b = b.
Proof. reflexivity. Qed.

Lemma append_assoc (a b c : string) : (a +:+ b) +:+ c = a +:+ (b +:+ c).
Proof.
  induction a as [|x a IH]; [reflexivity|].
  rewrite !append_cons. now f_equal.
Qed.

Lemma length_append (a b : string) :
  String.length (a +:+ b) = (String.length a + String.length b)%nat.
Proof.
  induction a as [|x a IH]; [reflexivity|].
  rewrite append_cons. cbn [String.length]. now rewrite IH.
Qed.

(** ** The JSON text of an object parses back to the object *)

Lemma parse_chars_escape_char (c : ascii) (tail : string) :
  Json.parse_chars (Json.escape_char c +:+ tail)
  = Json.cons_char c (Json.parse_chars tail).
Proof.
  destruct c as [[] [] [] [] [] [] [] []]; reflexivity.
Qed.

Lemma parse_chars_escape (s rest : string) :
  Json.parse_chars (Json.escape s +:+ String Json.dquote rest)
  = Some (s, rest).
Proof.
  induction s as [|c s IH]; [reflexivity|].
  cbn [Json.escape]. rewrite append_assoc, parse_chars_escape_char, IH.
  reflexivity.
Qed.

Lemma parse_digits_string_of_uint (u : uint) (rest : string) :
  Json.parse_digits rest = (Nil, rest) ->
  Json.parse_digits (NilEmpty.string_of_uint u +:+ rest) = (u, rest).
Proof.
  intros Hrest.
  induction u as [|u IH|u IH|u IH|u IH|u IH|u IH|u IH|u IH|u IH|u IH];
    [exact Hrest|..];
    cbn [NilEmpty.string_of_uint]; rewrite append_cons;
    cbn [Json.parse_digits]; rewrite IH; reflexivity.
Qed.

Lemma uint_beq_refl (u : uint) : uint_beq u u = true.
Proof. now apply internal_uint_dec_lb. Qed.

Lemma to_int_normal (z : Z) : norm (Z.to_int z) = Z.to_int z.
Proof. now rewrite <- DecimalZ.to_of, DecimalZ.of_to. Qed.


Lemma parse_number_unsigned (u : uint) (rest : string) :
  unorm u = u ->
  Json.parse_digits rest = (Nil, rest) ->
  Json.parse_number (NilEmpty.string_of_uint u +:+ rest)
  = Some (Z.of_int (Pos u), rest).
Proof.
  intros Hu Hrest.
  assert (Hd := parse_digits_string_of_uint u rest Hrest).
  assert (Hnil : u <> Nil) by (rewrite <- Hu; apply unorm_nonnil).
  unfold Json.parse_number.
  destruct u; [contradiction|..];
    cbn [NilEmpty.string_of_uint] in *; rewrite append_cons in *;
    cbn [Ascii.eqb Bool.eqb]; rewrite Hd, Hu, uint_beq_refl; reflexivity.
Qed.

Lemma parse_number_to_string (z : Z) (rest : string) :
  Json.parse_digits rest = (Nil, rest) ->
  Json.parse_number (Json.number_to_string z +:+ rest) = Some (z, rest).
Proof.
  intros Hrest.
  assert (Hn := to_int_normal z).
  assert (Hz := DecimalZ.of_to z).
  unfold Json.number_to_string.
  destruct (Z.to_int z) as [u|u].
  - cbn [norm] in Hn. injection Hn as Hu.
    rewrite parse_number_unsigned by assumption. now rewrite Hz.
  - cbn [norm] in Hn.
    assert (Hh : nzhead u = u) by (destruct (nzhead u); congruence).
    assert (Hnil : u <> Nil).
    { intros ->. cbn in Hn. discriminate. }
    assert (Hu : unorm u = u).
    { rewrite unorm_nzhead; rewrite Hh; auto. }
    rewrite append_cons. unfold Json.parse_number.
    cbn [Ascii.eqb Bool.eqb].
    rewrite (parse_digits_string_of_uint u rest Hrest), Hu, uint_beq_refl, Hz.
    destruct u; [contradiction|..]; reflexivity.
Qed.

Lemma parse_value_stringify (v : Json.jsval) (rest : string) :
  Json.parse_digits rest = (Nil, rest) ->
  Json.parse_value (Json.stringify_value v +:+ rest) = Some (v, rest).
Proof.
  intros Hrest. destruct v as [s|n]; cbn [Json.stringify_value].
  - unfold Json.quote. rewrite append_cons, append_assoc, append_cons, append_nil.
    unfold Json.parse_value.
    replace (Ascii.eqb Json.dquote Json.dquote) with true by reflexivity.
    now rewrite parse_chars_escape.
  - assert (Hn := parse_number_to_string n rest Hrest).
    unfold Json.parse_value.
    destruct (Json.number_to_string n +:+ rest) as [|c r]; [discriminate|].
    destruct (Ascii.eqb c Json.dquote) eqn:E.
    + apply Ascii.eqb_eq in E. subst c. discriminate.
    + now rewrite Hn.
Qed.

Lemma parse_member_stringify (m : string * Json.jsval) (rest : string) :
  Json.parse_digits rest = (Nil, rest) ->
  Json.parse_member (Json.stringify_member m +:+ rest) = Some (m, rest).
Proof.
  intros Hrest. destruct m as [k v].
  unfold Json.stringify_member, Json.quote. cbn [fst snd].
  rewrite append_assoc, !append_cons, append_assoc, !append_cons, append_nil.
  unfold Json.parse_member.
  replace (Ascii.eqb Json.dquote Json.dquote) with true by reflexivity.
  rewrite parse_chars_escape.
  replace (Ascii.eqb ":" ":") with true by reflexivity.
  now rewrite parse_value_stringify.
Qed.

Lemma stringify_members_cons (m m' : string * Json.jsval) (o : Json.jsobject) :
  Json.stringify_members (m :: m' :: o)
  = Json.stringify_member m +:+ String "," (Json.stringify_members (m' :: o)).
Proof. reflexivity. Qed.

Lemma parse_members_stringify (o : Json.jsobject) :
  o <> [] ->
  forall (fuel : nat) (rest : string),
    (length o <= fuel)%nat ->
    Json.parse_members fuel
      (Json.stringify_members o +:+ String "}" rest) = Some (o, rest).
Proof.
  induction o as [|m o IH]; [congruence|].
  intros _ fuel rest Hfuel.
  destruct fuel as [|fuel]; [cbn in Hfuel; lia|].
  cbn [length] in Hfuel.
  destruct o as [|m' o'].
  - cbn [Json.stringify_members Json.parse_members].
    rewrite parse_member_stringify by reflexivity. reflexivity.
  - rewrite stringify_members_cons, append_assoc, append_cons.
    cbn [Json.parse_members].
    rewrite parse_member_stringify by reflexivity.
    replace (Ascii.eqb "," ",") with true by reflexivity.
    rewrite IH by (try congruence; cbn [length] in *; lia). reflexivity.
Qed.

Lemma length_stringify_members (o : Json.jsobject) :
  (length o <= String.length (Json.stringify_members o))%nat.
Proof.
  induction o as [|m o IH]; [cbn; lia|].
  assert (Hm : (1 <= String.length (Json.stringify_member m))%nat).
  { unfold Json.stringify_member, Json.quote. rewrite append_cons.
    cbn [String.length]. lia. }
  destruct o as [|m' o'].
  - exact Hm.
  - rewrite stringify_members_cons, length_append.
    cbn [String.length]. cbn [length] in *. lia.
Qed.

Lemma parse_object_stringify (o : Json.jsobject) :
  Json.parse_object (Json.stringify_object o) = Some o.
Proof.
  destruct o as [|m o]; [reflexivity|].
  assert (Hlen := length_stringify_members (m :: o)).
  assert (Hp := parse_members_stringify (m :: o) ltac:(congruence)
                  (String.length (Json.stringify_members (m :: o) +:+ "}"))
                  EmptyString).
  unfold Json.stringify_object, Json.parse_object.
  replace (Ascii.eqb "{" "{") with true by reflexivity.
  assert (Hl : (2 <= String.length (Json.stringify_members (m :: o) +:+ "}"))%nat).
  { rewrite length_append. cbn [String.length length] in *. lia. }
  rewrite Hp by (rewrite length_append; lia).
  destruct (Json.stringify_members (m :: o) +:+ "}") as [|c [|c' r]];
    cbn [String.length] in Hl; try lia. reflexivity.
Qed.

Lemma object_to_decision_to_object (d : Decision) :
  Storage.object_to_decision (Storage.decision_to_object d) = Some d.
Proof.
  destruct d as [i ty tx r st du en s cr fn].
  destruct ty, s, r, fn; reflexivity.
Qed.

Lemma JSON_parse_stringify (d : Decision) :
  Storage.JSON_parse (Storage.JSON_stringify d) = Some d.
Proof.
  unfold Storage.JSON_parse, Storage.JSON_stringify.
  rewrite parse_object_stringify. apply object_to_decision_to_object.
Qed.

Lemma JSON_stringify_truthy (d : Decision) :
  String.eqb (Storage.JSON_stringify d) EmptyString = false.
Proof. reflexivity. Qed.

(** ** services/storage.ts *)

Lemma getDecision_saveDecision (d : Decision) (ls : gmap string string) :
  Storage.getDecision (Storage.saveDecision d ls) = Storage.Returned (Some d).
Proof.
  unfold Storage.getDecision, Storage.saveDecision.
  rewrite lookup_insert_eq, JSON_stringify_truthy, JSON_parse_stringify.
  reflexivity.
Qed.

Lemma getDecision_clearDecision (ls : gmap string string) :
  Storage.getDecision (Storage.clearDecision ls) = Storage.Returned None.
Proof.
  unfold Storage.getDecision, Storage.clearDecision.
  now rewrite lookup_delete_eq.
Qed.

Lemma saveDecision_saveDecision (d1 d2 : Decision) (ls : gmap string string) :
  Storage.saveDecision d2 (Storage.saveDecision d1 ls)
  = Storage.saveDecision d2 ls.
Proof. unfold Storage.saveDecision. apply insert_insert_eq. Qed.

(** C8.  Whatever the store held, reading it right after
    [saveDecision d] returns a record equal to [d]; reading it after
    [clearDecision] returns null; and a second save replaces the record
    of the first, so that the store holds the later record only. *)
Theorem C8_store_round_trip :
  (forall (d : Decision) (ls : gmap string string),
      Storage.getDecision (Storage.saveDecision d ls)
      = Storage.Returned (Some d))
  /\ (forall ls : gmap string string,
        Storage.getDecision (Storage.clearDecision ls)
        = Storage.Returned None)
  /\ (forall (d1 d2 : Decision) (ls : gmap string string),
        Storage.saveDecision d2 (Storage.saveDecision d1 ls)
        = Storage.saveDecision d2 ls
        /\ Storage.getDecision
             (Storage.saveDecision d2 (Storage.saveDecision d1 ls))
           = Storage.Returned (Some d2)).
Proof.
  split; [exact getDecision_saveDecision|].
  split; [exact getDecision_clearDecision|].
  intros d1 d2 ls. split.
  - apply saveDecision_saveDecision.
  - apply getDecision_saveDecision.
Qed.

(** ** The commit: [handleStart] *)

Lemma handleStart_activeDecision (reflection : string) (now1 now2 : Z)
  (s : App.AppState) :
  App.activeDecision (ReflectionScreen.handleStart reflection now1 now2 s)
  = Some {| id := id (App.draftDecision s);
            type := type (App.draftDecision s);
            text := text (App.draftDecision s);
            reflectionText := Some reflection;
            startTime := now1;
            durationMinutes := durationMinutes (App.draftDecision s);
            endTime := now2 + durationMinutes (App.draftDecision s) * 60 * 1000;
            status := WAITING;
            createdAt := createdAt (App.draftDecision s);
            finalNote := finalNote (App.draftDecision s) |}.
Proof. reflexivity. Qed.

Lemma handleStart_stored (reflection : string) (now1 now2 : Z)
  (s : App.AppState) :
  Storage.getDecision
    (App.localStorage (ReflectionScreen.handleStart reflection now1 now2 s))
  = Storage.Returned
      (App.activeDecision (ReflectionScreen.handleStart reflection now1 now2 s)).
Proof.
  unfold ReflectionScreen.handleStart, App.startWaiting.
  cbn [App.navigate App.setActiveDecision App.withLocalStorage
       App.localStorage App.activeDecision].
  apply getDecision_saveDecision.
Qed.

(** C1.  The commit reads the clock twice, once for [startTime] and once
    for [endTime].  On the draft of the specification's scenario (type
    SHOPPING, text sneakers, five minutes), built by the three screens,
    with the first reading 1000 and the second 1001, the WAITING
    decision has [startTime] 1000 and [endTime - startTime] 300001, and
    not 5 * 60000. *)
Theorem C1_commit_reads_the_clock_twice :
  let s0 := App.first_render ∅ App.PathType "u" 0 in
  let s1 := DecisionTypeScreen.handleSelect SHOPPING s0 in
  let s2 := DecisionInputScreen.handleNext "sneakers" s1 in
  let s3 := DelaySelectionScreen.handleSelect 5 s2 in
  let s4 := ReflectionScreen.handleStart "" 1000 1001 s3 in
  exists d : Decision,
    App.activeDecision s4 = Some d
    /\ status d = WAITING
    /\ text d = "sneakers"
    /\ durationMinutes d = 5
    /\ startTime d = 1000
    /\ endTime d - startTime d = 300001
    /\ endTime d - startTime d <> durationMinutes d * 60000.
Proof.
  eexists. split; [reflexivity|].
  repeat split; try reflexivity. cbn. lia.
Qed.

(** ** The emergency override: [handleEmergency] *)

Lemma handleEmergency_active (now : Z) (s : App.AppState) (a : Decision) :
  App.activeDecision s = Some a ->
  App.handleEmergency now s
  = App.setActiveDecision (Some (with_endTime a now))
      (App.withLocalStorage (Storage.saveDecision (with_endTime a now)) s).
Proof. intros H. unfold App.handleEmergency. now rewrite H. Qed.

(** C10.  With no active decision the emergency override returns the
    state it was given: the active decision, the store and everything
    else are as before. *)
Theorem C10_emergency_without_decision_is_noop :
  forall (now : Z) (s : App.AppState),
    App.activeDecision s = None ->
    App.handleEmergency now s = s.
Proof.
  intros now s H. unfold App.handleEmergency. now rewrite H.
Qed.

Lemma C10_witness :
  let s := App.first_render ∅ App.PathWaiting "u" 0 in
  App.activeDecision s = None /\ App.handleEmergency 60000 s = s.
Proof.
  split; [reflexivity|].
  apply (C10_emergency_without_decision_is_noop 60000); reflexivity.
Defined.




(** ** The waiting screen: expiry *)

Lemma interval_useEffect (st : WaitingScreen.State) (d : Decision) :
  WaitingScreen.decision st = Some d ->
  WaitingScreen.interval (WaitingScreen.useEffect st)
  = Some (WaitingScreen.mkInterval d (WaitingScreen.notified st)).
Proof. intros H. unfold WaitingScreen.useEffect. cbn. now rewrite H. Qed.

Lemma tick_expired (st : WaitingScreen.State) (c : WaitingScreen.Interval)
  (now : Z) (granted : bool) :
  WaitingScreen.interval st = Some c ->
  endTime (WaitingScreen.seen_decision c) <= now ->
  WaitingScreen.tick now granted st
  = if negb (WaitingScreen.seen_notified c)
    then (WaitingScreen.setNotified_true (WaitingScreen.clearInterval st),
          ((if granted then [WaitingScreen.ShowNotification] else []) ++
           [WaitingScreen.PlayAlarm; WaitingScreen.OnComplete])%list)
    else (WaitingScreen.clearInterval st, [WaitingScreen.OnComplete]).
Proof.
  intros Hi Hle. unfold WaitingScreen.tick. rewrite Hi.
  assert (E : (endTime (WaitingScreen.seen_decision c) - now <=? 0)%Z = true)
    by (apply Z.leb_le; lia).
  now rewrite E.
Qed.

Lemma tick_expired_OnComplete (st : WaitingScreen.State)
  (c : WaitingScreen.Interval) (now : Z) (granted : bool) :
  WaitingScreen.interval st = Some c ->
  endTime (WaitingScreen.seen_decision c) <= now ->
  In WaitingScreen.OnComplete (snd (WaitingScreen.tick now granted st)).
Proof.
  intros Hi Hle. rewrite (tick_expired st c now granted Hi Hle).
  destruct (WaitingScreen.seen_notified c), granted; cbn; auto.
Qed.

Lemma run_two (st : WaitingScreen.State) (e1 e2 : WaitingScreen.Event) :
  snd (WaitingScreen.run st [e1; e2])
  = (snd (WaitingScreen.step st e1)
     ++ snd (WaitingScreen.step (fst (WaitingScreen.step st e1)) e2))%list.
Proof.
  cbn [WaitingScreen.run].
  destruct (WaitingScreen.step st e1) as [st1 out1]. cbn [fst snd].
  destruct (WaitingScreen.step st1 e2) as [st2 out2]. cbn [fst snd].
  now rewrite app_nil_r.
Qed.


(** C6.  An emergency override at time [t] on an active decision [d]
    makes the active decision [d] with [endTime] set to [t] and every
    other field as it was, stores that record, and leaves the rest of
    the state alone; the waiting screen, rendered again with the new
    record, takes the expiry branch at its next tick, at any time from
    [t] on. *)
Theorem C6_emergency_override :
  forall (s : App.AppState) (d : Decision) (t now : Z) (granted : bool)
         (screen : WaitingScreen.State),
    App.activeDecision s = Some d ->
    t <= now ->
    let s' := App.handleEmergency t s in
    exists d' : Decision,
      App.activeDecision s' = Some d'
      /\ endTime d' = t
      /\ d' = {| id := id d; type := type d; text := text d;
                 reflectionText := reflectionText d;
                 startTime := startTime d;
                 durationMinutes := durationMinutes d; endTime := t;
                 status := status d; createdAt := createdAt d;
                 finalNote := finalNote d |}
      /\ Storage.getDecision (App.localStorage s') = Storage.Returned (Some d')
      /\ App.draftDecision s' = App.draftDecision s
      /\ App.location s' = App.location s
      /\ App.console s' = App.console s
      /\ In WaitingScreen.OnComplete
           (snd (WaitingScreen.run screen
                   [WaitingScreen.Rerender (Some d');
                    WaitingScreen.Tick now granted])).
Proof.
  intros s d t now granted screen Hd Ht s'. subst s'.
  rewrite (handleEmergency_active t s d Hd).
  eexists. split; [reflexivity|].
  split; [reflexivity|]. split; [reflexivity|].
  split; [apply getDecision_saveDecision|].
  repeat (split; [reflexivity|]).
  rewrite run_two. cbn [WaitingScreen.step fst snd app].
  eapply tick_expired_OnComplete.
  - now apply interval_useEffect.
  - cbn. lia.
Qed.

Lemma C6_witness :
  let d := {| id := "u"; type := SHOPPING; text := "sneakers";
              reflectionText := Some ""; startTime := 0;
              durationMinutes := 5; endTime := 300000; status := WAITING;
              createdAt := 0; finalNote := None |} in
  let s := App.startWaiting d (App.first_render ∅ App.PathWaiting "u" 0) in
  exists d' : Decision,
    App.activeDecision (App.handleEmergency 60000 s) = Some d'
    /\ endTime d' = 60000
    /\ startTime d' = 0.
Proof.
  destruct (C6_emergency_override
              (App.startWaiting
                 {| id := "u"; type := SHOPPING; text := "sneakers";
                    reflectionText := Some ""; startTime := 0;
                    durationMinutes := 5; endTime := 300000;
                    status := WAITING; createdAt := 0; finalNote := None |}
                 (App.first_render ∅ App.PathWaiting "u" 0))
              {| id := "u"; type := SHOPPING; text := "sneakers";
                 reflectionText := Some ""; startTime := 0;
                 durationMinutes := 5; endTime := 300000; status := WAITING;
                 createdAt := 0; finalNote := None |}
              60000 61000 true
              (WaitingScreen.mount
                 (Some
                    {| id := "u"; type := SHOPPING; text := "sneakers";
                       reflectionText := Some ""; startTime := 0;
                       durationMinutes := 5; endTime := 300000;
                       status := WAITING; createdAt := 0;
                       finalNote := None |})))
    as [d' [Ha [He [Hd' _]]]].
  - reflexivity.
  - lia.
  - exists d'. split; [exact Ha|]. split; [exact He|]. now rewrite Hd'.
Defined.

(** ** The resolution: [handleFinalClose] and [handleFinish] *)

Lemma records_handleFinish (status : DecisionStatus) (note : option string)
  (uuid : string) (now : Z) (s : App.AppState) :
  App.records (App.handleFinish status note uuid now s)
  = [Storage.createDraftDecision uuid now].
Proof.
  unfold App.records, App.handleFinish.
  cbn [App.setDraftDecision App.setActiveDecision App.withLocalStorage
       App.console_log App.activeDecision App.draftDecision App.localStorage].
  now rewrite getDecision_clearDecision.
Qed.

(** C2, as the claim states it, fails: after the decision of the
    specification's scenario is resolved as CANCELLED with the note of
    the scenario, no record that the program holds (the active decision,
    the draft, the stored record) has that note and that status. *)
Lemma C2_counterexample_no_record_receives_the_note :
  let d := {| id := "u"; type := SHOPPING; text := "sneakers";
              reflectionText := Some ""; startTime := 0;
              durationMinutes := 5; endTime := 300000; status := WAITING;
              createdAt := 0; finalNote := None |} in
  let s := App.navigate App.PathResult
             (App.startWaiting d (App.first_render ∅ App.PathRoot "u" 0)) in
  let screen :=
    ResultScreen.submitFeedback
      (ResultScreen.setNote "didn't need them"
         (ResultScreen.handleSelection CANCELLED ResultScreen.initial)) in
  let s' := AnimatedRoutes.finalClose screen "v" 400000 s in
  ~ (exists r : Decision,
        In r (App.records s')
        /\ finalNote r = Some "didn't need them"
        /\ status r = CANCELLED).
Proof.
  intros d s screen s' [r [Hin [Hnote _]]].
  subst s' screen. unfold AnimatedRoutes.finalClose in Hin.
  cbn [ResultScreen.handleFinalClose ResultScreen.submitFeedback
       ResultScreen.setNote ResultScreen.handleSelection
       ResultScreen.selectedAction ResultScreen.note ResultScreen.initial
       ResultScreen.step] in Hin.
  rewrite records_handleFinish in Hin.
  destruct Hin as [<-|[]]. discriminate.
Qed.

(** C2, amended.  When an action has been selected on the result
    screen, closing it hands the action and the note to [handleFinish],
    which writes both to the console and nowhere else: the store is
    cleared, there is no active decision, the draft is a fresh one, and
    every record that the program then holds has no final note and
    status DRAFT. *)
Theorem C2_finish_logs_and_clears :
  forall (screen : ResultScreen.State) (action : DecisionStatus)
         (uuid : string) (now : Z) (s : App.AppState),
    ResultScreen.selectedAction screen = Some action ->
    let s' := AnimatedRoutes.finalClose screen uuid now s in
    App.console s'
    = (App.console s
       ++ [App.Finished action (Some (ResultScreen.note screen))])%list
    /\ App.localStorage s' !! Storage.STORAGE_KEY = None
    /\ Storage.getDecision (App.localStorage s') = Storage.Returned None
    /\ App.activeDecision s' = None
    /\ App.draftDecision s' = Storage.createDraftDecision uuid now
    /\ (forall r : Decision,
           In r (App.records s') -> finalNote r = None /\ status r = DRAFT).
Proof.
  intros screen action uuid now s Ha s'. subst s'.
  unfold AnimatedRoutes.finalClose, ResultScreen.handleFinalClose.
  rewrite Ha.
  split; [reflexivity|].
  split; [apply lookup_delete_eq|].
  split; [apply getDecision_clearDecision|].
  split; [reflexivity|]. split; [reflexivity|].
  intros r Hin. rewrite records_handleFinish in Hin.
  destruct Hin as [<-|[]]. split; reflexivity.
Qed.

Lemma C2_witness :
  let d := {| id := "u"; type := SHOPPING; text := "sneakers";
              reflectionText := Some ""; startTime := 0;
              durationMinutes := 5; endTime := 300000; status := WAITING;
              createdAt := 0; finalNote := None |} in
  let s := App.navigate App.PathResult
             (App.startWaiting d (App.first_render ∅ App.PathRoot "u" 0)) in
  let screen :=
    ResultScreen.setNote "didn't need them"
      (ResultScreen.handleSelection CANCELLED ResultScreen.initial) in
  let s' := AnimatedRoutes.finalClose screen "v" 400000 s in
  App.console s' = [App.Finished CANCELLED (Some "didn't need them")]
  /\ Storage.getDecision (App.localStorage s') = Storage.Returned None
  /\ App.activeDecision s' = None.
Proof.
  intros d s screen s'.
  destruct (C2_finish_logs_and_clears screen CANCELLED "v" 400000 s)
    as [Hc [_ [Hg [Hn _]]]].
  - reflexivity.
  - split; [exact Hc|]. split; [exact Hg|exact Hn].
Defined.

(** ** Validation in the screens *)

(** C9, as the claim states it, fails: [handleStart] checks nothing.  On
    a fresh draft, whose text is empty and whose duration is 0, it
    makes a WAITING decision and stores it. *)
Lemma C9_counterexample_commit_is_unchecked :
  let s := App.first_render ∅ App.PathReflection "u" 0 in
  let s' := ReflectionScreen.handleStart "" 1000 1000 s in
  exists d : Decision,
    App.activeDecision s' = Some d
    /\ text d = ""
    /\ durationMinutes d = 0
    /\ status d = WAITING
    /\ Storage.getDecision (App.localStorage s') = Storage.Returned (Some d).
Proof.
  eexists. split; [reflexivity|].
  repeat (split; [reflexivity|]).
  apply (handleStart_stored "" 1000 1000).
Qed.

(** C9, amended.  The checks are in the screens before the commit, and
    they raise nothing.  [handleNext] with a text that is empty once
    trimmed returns the state as it was; the Simpan button of the
    duration picker, once the picker has validated a total below 1
    minute or above 7 * 24 * 60 minutes, returns the state as it was.
    In both cases the draft is still a DRAFT without that text or
    duration, and the store is untouched. *)
Theorem C9_screens_refuse_silently :
  forall (text : string) (picker : CustomDurationPicker.State)
         (s : App.AppState),
    JsString.trim text = "" ->
    (CustomDurationPicker.calculateMinutes picker < 1
     \/ CustomDurationPicker.MAX_MINUTES
        < CustomDurationPicker.calculateMinutes picker) ->
    DecisionInputScreen.handleNext text s = s
    /\ DelaySelectionScreen.confirmCustom
         (CustomDurationPicker.validate picker) s = s.
Proof.
  intros text picker s Htext Hdur. split.
  - unfold DecisionInputScreen.handleNext. now rewrite Htext.
  - unfold DelaySelectionScreen.confirmCustom,
      CustomDurationPicker.handleConfirm, CustomDurationPicker.validate.
    cbn [CustomDurationPicker.error].
    destruct (CustomDurationPicker.calculateMinutes picker
              >? CustomDurationPicker.MAX_MINUTES)%Z eqn:E1; [reflexivity|].
    destruct (CustomDurationPicker.calculateMinutes picker <? 1)%Z eqn:E2;
      [reflexivity|].
    apply Z.ltb_ge in E2. rewrite Z.gtb_ltb in E1. apply Z.ltb_ge in E1. lia.
Qed.

Lemma C9_witness :
  let s := App.first_render ∅ App.PathInput "u" 0 in
  let zero := CustomDurationPicker.mkState 0 CustomDurationPicker.minutes None in
  let over := CustomDurationPicker.mkState 10081 CustomDurationPicker.minutes None in
  DecisionInputScreen.handleNext "" s = s
  /\ DelaySelectionScreen.confirmCustom (CustomDurationPicker.validate zero) s = s
  /\ DelaySelectionScreen.confirmCustom (CustomDurationPicker.validate over) s = s.
Proof.
  intros s zero over.
  destruct (C9_screens_refuse_silently "" zero s) as [H1 H2].
  - reflexivity.
  - left. reflexivity.
  - destruct (C9_screens_refuse_silently "  " over s) as [_ H3].
    + reflexivity.
    + right. reflexivity.
    + split; [exact H1|]. split; [exact H2|exact H3].
Defined.

(** ** Reload *)

Lemma initialize_saved (s : App.AppState) (d : Decision) :
  Storage.getDecision (App.localStorage s) = Storage.Returned (Some d) ->
  App.initialize s
  = Some (App.setIsLoading false (App.setActiveDecision (Some d) s)).
Proof. intros H. unfold App.initialize. now rewrite H. Qed.

Lemma tick_running (st : WaitingScreen.State) (c : WaitingScreen.Interval)
  (now : Z) (granted : bool) :
  WaitingScreen.interval st = Some c ->
  now < endTime (WaitingScreen.seen_decision c) ->
  WaitingScreen.tick now granted st
  = (WaitingScreen.mkState (WaitingScreen.decision st)
       (WaitingScreen.timeLeft_of (endTime (WaitingScreen.seen_decision c) - now))
       (WaitingScreen.progress_of
          (endTime (WaitingScreen.seen_decision c) - now)
          (endTime (WaitingScreen.seen_decision c)
           - startTime (WaitingScreen.seen_decision c)))
       (WaitingScreen.notified st) (WaitingScreen.interval st),
     []).
Proof.
  intros Hi Hlt. unfold WaitingScreen.tick. rewrite Hi.
  assert (E : (endTime (WaitingScreen.seen_decision c) - now <=? 0)%Z = false)
    by (apply Z.leb_gt; lia).
  now rewrite E.
Qed.

Lemma timeLeft_of_bracket (diff : Z) :
  0 < diff ->
  let t := WaitingScreen.timeLeft_of diff in
  0 <= WaitingScreen.h t
  /\ 0 <= WaitingScreen.m t < 60
  /\ 0 <= WaitingScreen.s t < 60
  /\ (WaitingScreen.h t * 3600 + WaitingScreen.m t * 60
      + WaitingScreen.s t) * 1000 <= diff
  /\ diff < (WaitingScreen.h t * 3600 + WaitingScreen.m t * 60
             + WaitingScreen.s t) * 1000 + 1000.
Proof.
  intros Hpos t. subst t. unfold WaitingScreen.timeLeft_of.
  cbn [WaitingScreen.h WaitingScreen.m WaitingScreen.s].
  rewrite !Z.rem_mod_nonneg by lia.
  change (1000 * 60 * 60) with 3600000. change (1000 * 60) with 60000.
  assert (H1 := Z.div_mod diff 3600000 ltac:(lia)).
  assert (H2 := Z.mod_pos_bound diff 3600000 ltac:(lia)).
  assert (H3 := Z.div_mod (diff mod 3600000) 60000 ltac:(lia)).
  assert (H4 := Z.mod_pos_bound (diff mod 3600000) 60000 ltac:(lia)).
  assert (H5 : (diff mod 3600000) mod 60000 = diff mod 60000).
  { apply Z.mod_mod_divide. exists 60. reflexivity. }
  assert (H6 := Z.div_mod (diff mod 60000) 1000 ltac:(lia)).
  assert (H7 := Z.mod_pos_bound (diff mod 60000) 1000 ltac:(lia)).
  assert (H8 := Z.mod_pos_bound diff 60000 ltac:(lia)).
  assert (H9 : 0 <= diff / 3600000) by (apply Z.div_pos; lia).
  assert (H10 : 0 <= diff mod 3600000 / 60000) by (apply Z.div_pos; lia).
  assert (H11 : 0 <= diff mod 60000 / 1000) by (apply Z.div_pos; lia).
  assert (H12 : diff mod 3600000 / 60000 < 60)
    by (apply Z.div_lt_upper_bound; lia).
  assert (H13 : diff mod 60000 / 1000 < 60)
    by (apply Z.div_lt_upper_bound; lia).
  rewrite H5 in H3. lia.
Qed.

(** C7, as the claim states it, fails: only the root route reads the
    clock.  The store holds a WAITING record that ends at 300000 and
    the page is opened on the result path at 1000: once the record is
    loaded, the result screen is shown, and no render leaves that
    path for the waiting screen. *)
Lemma C7_counterexample_result_path_before_the_end :
  let d := {| id := "u"; type := SHOPPING; text := "sneakers";
              reflectionText := Some ""; startTime := 0;
              durationMinutes := 5; endTime := 300000; status := WAITING;
              createdAt := 0; finalNote := None |} in
  let s0 := App.first_render (Storage.saveDecision d ∅) App.PathResult "v"
              1000 in
  exists s1 : App.AppState,
    App.initialize s0 = Some s1
    /\ 1000 < endTime d
    /\ App.location (AppView.render 1000 s1) = App.PathResult
    /\ AppView.view 1000 (AppView.render 1000 s1)
       = AppView.Router (AnimatedRoutes.ResultScreen "sneakers").
Proof.
  intros d s0. subst s0.
  rewrite (initialize_saved _ d) by apply getDecision_saveDecision.
  eexists. split; [reflexivity|].
  split; [cbn; lia|]. split; reflexivity.
Qed.

(** C7, amended.  The store holds a record [d] with status WAITING.
    While [App] is loading it shows no route and redirects nothing; its
    initialising effect makes [d] the active decision and ends the
    loading, on the path the page was opened with.  On the root path
    the next render reads the clock: the location becomes the result
    path, with the result screen, when [now >= endTime d], and the
    waiting path, with the waiting screen on the stored record,
    otherwise.  On the waiting path the waiting screen on the stored
    record is shown, and its completion leads to the result screen; on
    the result path the result screen is shown; neither route reads the
    clock.  The first tick of a waiting screen mounted on [d] sounds
    the alarm and completes when [now >= endTime d]; otherwise it does
    neither and shows the time from [now] to the stored [endTime], to
    the second. *)
Theorem C7_reload_recovery :
  forall (storage : gmap string string) (d : Decision) (hash : App.Path)
         (uuid : string) (t0 : Z),
    Storage.getDecision storage = Storage.Returned (Some d) ->
    status d = WAITING ->
    let s0 := App.first_render storage hash uuid t0 in
    exists s1 : App.AppState,
      (forall now : Z,
          AppView.view now s0 = AppView.Loading
          /\ AppView.render now s0 = s0)
      /\ App.initialize s0 = Some s1
      /\ App.activeDecision s1 = Some d
      /\ App.isLoading s1 = false
      /\ App.location s1 = hash
      /\ (hash = App.PathRoot ->
          forall now now2 : Z,
            let s2 := AppView.render now s1 in
            if (now >=? endTime d)%Z
            then App.location s2 = App.PathResult
                 /\ AppView.view now2 s2
                    = AppView.Router (AnimatedRoutes.ResultScreen (text d))
            else App.location s2 = App.PathWaiting
                 /\ AppView.view now2 s2
                    = AppView.Router (AnimatedRoutes.WaitingScreen d))
      /\ (hash = App.PathWaiting ->
          forall now : Z,
            AppView.render now s1 = s1
            /\ AppView.view now s1
               = AppView.Router (AnimatedRoutes.WaitingScreen d)
            /\ AppView.view now (AnimatedRoutes.onComplete s1)
               = AppView.Router (AnimatedRoutes.ResultScreen (text d)))
      /\ (hash = App.PathResult ->
          forall now : Z,
            AppView.render now s1 = s1
            /\ AppView.view now s1
               = AppView.Router (AnimatedRoutes.ResultScreen (text d)))
      /\ (forall (now : Z) (granted : bool),
             let r := WaitingScreen.tick now granted
                        (WaitingScreen.mount (Some d)) in
             let t := WaitingScreen.timeLeft (fst r) in
             if (now >=? endTime d)%Z
             then In WaitingScreen.PlayAlarm (snd r)
                  /\ In WaitingScreen.OnComplete (snd r)
             else snd r = []
                  /\ (WaitingScreen.h t * 3600 + WaitingScreen.m t * 60
                      + WaitingScreen.s t) * 1000 <= endTime d - now
                  /\ endTime d - now
                     < (WaitingScreen.h t * 3600 + WaitingScreen.m t * 60
                        + WaitingScreen.s t) * 1000 + 1000).
Proof.
  intros storage d hash uuid t0 Hst Hw s0. subst s0.
  rewrite (initialize_saved _ d) by exact Hst.
  eexists. split; [intros now; split; reflexivity|].
  split; [reflexivity|]. split; [reflexivity|].
  split; [reflexivity|]. split; [reflexivity|].
  split; [|split; [|split]].
  - intros -> now now2 s2. subst s2.
    unfold AppView.view, AppView.render, AnimatedRoutes.render,
      AnimatedRoutes.element.
    cbn [App.isLoading App.location App.activeDecision App.setIsLoading
         App.setActiveDecision App.first_render].
    rewrite Hw. cbn [AnimatedRoutes.is_WAITING].
    destruct (now >=? endTime d)%Z; split; reflexivity.
  - intros -> now. repeat split; reflexivity.
  - intros -> now. split; reflexivity.
  - intros now granted r t. subst t r.
    destruct (now >=? endTime d)%Z eqn:E.
    + apply Z.geb_le in E.
      rewrite (tick_expired (WaitingScreen.mount (Some d))
                 (WaitingScreen.mkInterval d false) now granted eq_refl)
        by exact E.
      cbn [WaitingScreen.seen_notified negb snd].
      destruct granted; cbn; auto.
    + rewrite Z.geb_leb in E. apply Z.leb_gt in E.
      rewrite (tick_running (WaitingScreen.mount (Some d))
                 (WaitingScreen.mkInterval d false) now granted eq_refl)
        by exact E.
      cbn [fst snd WaitingScreen.timeLeft WaitingScreen.seen_decision].
      split; [reflexivity|].
      destruct (timeLeft_of_bracket (endTime d - now) ltac:(lia))
        as [_ [_ [_ [Hlo Hhi]]]].
      split; [exact Hlo|exact Hhi].
Qed.

Lemma C7_witness :
  let d := {| id := "u"; type := SHOPPING; text := "sneakers";
              reflectionText := Some ""; startTime := 0;
              durationMinutes := 5; endTime := 300000; status := WAITING;
              createdAt := 0; finalNote := None |} in
  exists s1 : App.AppState,
    App.initialize
      (App.first_render (Storage.saveDecision d ∅) App.PathRoot "v" 200000)
    = Some s1
    /\ App.isLoading s1 = false
    /\ App.location (AppView.render 200001 s1) = App.PathWaiting
    /\ App.location (AppView.render 300000 s1) = App.PathResult.
Proof.
  intros d.
  destruct (C7_reload_recovery (Storage.saveDecision d ∅) d App.PathRoot
              "v" 200000) as [s1 [_ [Hi [_ [Hl [_ [Hr _]]]]]]].
  - apply getDecision_saveDecision.
  - reflexivity.
  - exists s1. split; [exact Hi|]. split; [exact Hl|]. split.
    + exact (proj1 (Hr eq_refl 200001 0)).
    + exact (proj1 (Hr eq_refl 300000 0)).
Defined.

(** ** The waiting screen: progress *)

Lemma progress_of_whole (diff : Z) :
  0 < diff ->
  JsNum.equals_Z (WaitingScreen.progress_of diff diff) 0.
Proof.
  intros Hpos. unfold WaitingScreen.progress_of, JsNum.div.
  assert (E : (diff =? 0)%Z = false) by (apply Z.eqb_neq; lia).
  rewrite E. cbn [JsNum.mul JsNum.sub JsNum.add JsNum.neg JsNum.of_Z
                  JsNum.equals_Z].
  assert (Hq : ~ (inject_Z diff == 0)%Q).
  { unfold Qeq. cbn. lia. }
  field. exact Hq.
Qed.

(** C3, as the claim states it, fails: a tick at or after the end time
    does not set [progress].  On a fresh screen for a decision from 0 to
    300000, after the tick at 300000, [progress] is still 0 and not 100
    (the fraction is not 1). *)
Lemma C3_counterexample_progress_at_expiry :
  let d := {| id := "u"; type := SHOPPING; text := "sneakers";
              reflectionText := Some ""; startTime := 0;
              durationMinutes := 5; endTime := 300000; status := WAITING;
              createdAt := 0; finalNote := None |} in
  let st := fst (WaitingScreen.tick 300000 true (WaitingScreen.mount (Some d))) in
  JsNum.equals_Z (WaitingScreen.progress st) 0
  /\ ~ JsNum.equals_Z (WaitingScreen.progress st) 100.
Proof.
  cbn. split; [reflexivity|]. intros H. discriminate H.
Qed.

(** C3, amended.  On a screen whose interval runs on the decision [d]:
    a tick at [now = startTime d], when [startTime d < endTime d], sets
    [progress] to 0; a tick at [now >= endTime d] computes no quotient
    and leaves [progress] as it was, also when
    [startTime d = endTime d].  [tick] is a total function: no tick
    throws. *)
Theorem C3_progress_of_a_tick :
  forall (st : WaitingScreen.State) (d : Decision) (seen : bool)
         (now : Z) (granted : bool),
    WaitingScreen.interval st = Some (WaitingScreen.mkInterval d seen) ->
    (now = startTime d -> startTime d < endTime d ->
     JsNum.equals_Z
       (WaitingScreen.progress (fst (WaitingScreen.tick now granted st))) 0)
    /\ (endTime d <= now ->
        WaitingScreen.progress (fst (WaitingScreen.tick now granted st))
        = WaitingScreen.progress st).
Proof.
  intros st d seen now granted Hi. split.
  - intros -> Hlt.
    rewrite (tick_running st _ (startTime d) granted Hi) by exact Hlt.
    cbn [fst WaitingScreen.progress WaitingScreen.seen_decision].
    apply progress_of_whole. lia.
  - intros Hle.
    rewrite (tick_expired st _ now granted Hi) by exact Hle.
    cbn [WaitingScreen.seen_notified].
    unfold WaitingScreen.setNotified_true, WaitingScreen.clearInterval,
      WaitingScreen.useEffect.
    cbn [WaitingScreen.notified].
    destruct seen, (WaitingScreen.notified st); reflexivity.
Qed.

Lemma C3_witness :
  let d := {| id := "u"; type := SHOPPING; text := "sneakers";
              reflectionText := Some ""; startTime := 1000;
              durationMinutes := 5; endTime := 301000; status := WAITING;
              createdAt := 0; finalNote := None |} in
  let st := WaitingScreen.mount (Some d) in
  JsNum.equals_Z
    (WaitingScreen.progress (fst (WaitingScreen.tick 1000 true st))) 0
  /\ WaitingScreen.progress (fst (WaitingScreen.tick 301000 true st))
     = WaitingScreen.progress st.
Proof.
  intros d st.
  destruct (C3_progress_of_a_tick st d false 1000 true eq_refl) as [H0 _].
  destruct (C3_progress_of_a_tick st d false 301000 true eq_refl) as [_ H1].
  split.
  - apply H0; [reflexivity|cbn; lia].
  - apply H1. cbn. lia.
Defined.

(** ** The waiting screen: the one-shot flag *)

Lemma alarms_app (a b : list WaitingScreen.Effect) :
  WaitingScreen.alarms (a ++ b)
  = (WaitingScreen.alarms a + WaitingScreen.alarms b)%nat.
Proof.
  unfold WaitingScreen.alarms. now rewrite List.filter_app, List.length_app.
Qed.

Lemma notifications_app (a b : list WaitingScreen.Effect) :
  WaitingScreen.notifications (a ++ b)
  = (WaitingScreen.notifications a + WaitingScreen.notifications b)%nat.
Proof.
  unfold WaitingScreen.notifications.
  now rewrite List.filter_app, List.length_app.
Qed.

Lemma run_cons (st : WaitingScreen.State) (e : WaitingScreen.Event)
  (es : list WaitingScreen.Event) :
  snd (WaitingScreen.run st (e :: es))
  = (snd (WaitingScreen.step st e)
     ++ snd (WaitingScreen.run (fst (WaitingScreen.step st e)) es))%list.
Proof.
  cbn [WaitingScreen.run].
  destruct (WaitingScreen.step st e) as [st1 out1]. cbn [fst snd].
  destruct (WaitingScreen.run st1 es) as [st2 out2]. reflexivity.
Qed.

(** Once [notified] is set and the running interval, if any, has seen
    it, nothing that happens to the screen sounds the alarm or shows the
    notification. *)
Lemma run_after_notified (es : list WaitingScreen.Event) :
  forall st : WaitingScreen.State,
    WaitingScreen.notified st = true ->
    (forall c, WaitingScreen.interval st = Some c ->
               WaitingScreen.seen_notified c = true) ->
    WaitingScreen.alarms (snd (WaitingScreen.run st es)) = 0%nat
    /\ WaitingScreen.notifications (snd (WaitingScreen.run st es)) = 0%nat.
Proof.
  induction es as [|e es IH]; intros st Hn Hseen; [split; reflexivity|].
  rewrite run_cons, alarms_app, notifications_app.
  destruct e as [now granted|d'].
  - cbn [WaitingScreen.step]. unfold WaitingScreen.tick.
    destruct (WaitingScreen.interval st) as [c|] eqn:Hi.
    + rewrite (Hseen c eq_refl). cbn [negb].
      destruct (endTime (WaitingScreen.seen_decision c) - now <=? 0)%Z;
        cbn [fst snd].
      * destruct (IH (WaitingScreen.clearInterval st)) as [Ha Hb];
          [exact Hn|intros c' Hc'; discriminate Hc'|].
        rewrite Ha, Hb. split; reflexivity.
      * match goal with
        | |- context [WaitingScreen.run ?st' es] =>
            destruct (IH st') as [Ha Hb]; [exact Hn| |]
        end.
        -- cbn [WaitingScreen.interval].
           intros c' Hc'. injection Hc' as <-. exact (Hseen c eq_refl).
        -- rewrite Ha, Hb. split; reflexivity.
    + cbn [fst snd]. destruct (IH st Hn) as [Ha Hb].
      * intros c Hc. rewrite Hi in Hc. discriminate Hc.
      * rewrite Ha, Hb. split; reflexivity.
  - cbn [WaitingScreen.step fst snd].
    match goal with
    | |- context [WaitingScreen.run ?st' es] =>
        destruct (IH st') as [Ha Hb]
    end.
    + exact Hn.
    + unfold WaitingScreen.useEffect.
      cbn [WaitingScreen.interval WaitingScreen.decision WaitingScreen.notified].
      intros c Hc. destruct d' as [d'|]; [|discriminate Hc].
      injection Hc as <-. exact Hn.
    + rewrite Ha, Hb. split; reflexivity.
Qed.





(** * Further properties of the code *)

(** ** The commit *)

(** X1.  When the two clock readings of [handleStart] agree, the
    committed decision starts at that reading and ends exactly
    [durationMinutes * 60000] later, whatever the draft. *)
Theorem handleStart_exact_on_one_reading :
  forall (reflection : string) (now : Z) (s : App.AppState),
    exists d : Decision,
      App.activeDecision (ReflectionScreen.handleStart reflection now now s)
      = Some d
      /\ startTime d = now
      /\ endTime d - startTime d
         = durationMinutes (App.draftDecision s) * 60000.
Proof.
  intros reflection now s. eexists.
  split; [apply handleStart_activeDecision|].
  cbn [startTime endTime]. split; lia.
Qed.


(** X3.  A commit survives a reload: a program started on the store
    that [handleStart] left, on any path, has after its initialising
    effect the committed decision as its active decision. *)
Theorem commit_survives_reload :
  forall (reflection : string) (now1 now2 t0 : Z) (s : App.AppState)
         (hash : App.Path) (uuid : string),
    let s' := ReflectionScreen.handleStart reflection now1 now2 s in
    exists s1 : App.AppState,
      App.initialize (App.first_render (App.localStorage s') hash uuid t0)
      = Some s1
      /\ App.activeDecision s1 = App.activeDecision s'
      /\ App.isLoading s1 = false.
Proof.
  intros reflection now1 now2 t0 s hash uuid s'. subst s'.
  unfold App.initialize.
  cbn [App.first_render App.localStorage].
  change (App.localStorage
            (App.first_render
               (App.localStorage
                  (ReflectionScreen.handleStart reflection now1 now2 s))
               hash uuid t0))
    with (App.localStorage
            (ReflectionScreen.handleStart reflection now1 now2 s)).
  rewrite handleStart_stored, handleStart_activeDecision.
  eexists. split; [reflexivity|]. split; reflexivity.
Qed.

(** ** The emergency override *)

(** X4.  Of two emergency overrides in a row the later one decides: the
    state is the one that the later override alone would have made. *)
Theorem handleEmergency_last_wins :
  forall (t1 t2 : Z) (s : App.AppState),
    App.handleEmergency t2 (App.handleEmergency t1 s)
    = App.handleEmergency t2 s.
Proof.
  intros t1 t2 s. unfold App.handleEmergency.
  destruct (App.activeDecision s) as [a|] eqn:Ha.
  - cbn [App.activeDecision App.setActiveDecision App.withLocalStorage
         App.localStorage App.console App.location App.draftDecision
         App.isLoading].
    unfold App.setActiveDecision, App.withLocalStorage.
    cbn [App.activeDecision App.localStorage App.console App.location
         App.draftDecision App.isLoading].
    f_equal. unfold with_endTime at 2 4. cbn.
    apply saveDecision_saveDecision.
  - now rewrite Ha.
Qed.

(** X5.  An emergency override survives a reload: the record that a
    later start of the program reads from the store ends at the time of
    the override. *)
Theorem override_survives_reload :
  forall (t t0 : Z) (s : App.AppState) (a : Decision) (hash : App.Path)
         (uuid : string),
    App.activeDecision s = Some a ->
    exists (s1 : App.AppState) (d : Decision),
      App.initialize
        (App.first_render (App.localStorage (App.handleEmergency t s))
           hash uuid t0) = Some s1
      /\ App.activeDecision s1 = Some d
      /\ endTime d = t
      /\ startTime d = startTime a.
Proof.
  intros t t0 s a hash uuid Ha.
  rewrite (handleEmergency_active t s a Ha).
  rewrite (initialize_saved _ (with_endTime a t)).
  - eexists. eexists. split; [reflexivity|]. repeat split.
  - apply getDecision_saveDecision.
Qed.

Lemma override_survives_reload_witness :
  let a := {| id := "u"; type := SHOPPING; text := "sneakers";
              reflectionText := Some ""; startTime := 0;
              durationMinutes := 5; endTime := 300000; status := WAITING;
              createdAt := 0; finalNote := None |} in
  let s := App.startWaiting a (App.first_render ∅ App.PathWaiting "u" 0) in
  exists (s1 : App.AppState) (d : Decision),
    App.initialize
      (App.first_render (App.localStorage (App.handleEmergency 60000 s))
         App.PathRoot "v" 70000) = Some s1
    /\ App.activeDecision s1 = Some d
    /\ endTime d = 60000
    /\ startTime d = startTime a.
Proof.
  intros a s.
  apply (override_survives_reload 60000 70000 s a App.PathRoot "v").
  reflexivity.
Defined.

(** ** Invariants of the running program *)

Lemma confirmCustom_cases (picker : CustomDurationPicker.State)
  (s : App.AppState) :
  DelaySelectionScreen.confirmCustom picker s = s
  \/ DelaySelectionScreen.confirmCustom picker s
     = DelaySelectionScreen.handleSelect
         (CustomDurationPicker.calculateMinutes picker) s.
Proof.
  unfold DelaySelectionScreen.confirmCustom, CustomDurationPicker.handleConfirm.
  destruct (CustomDurationPicker.error picker); auto.
Qed.

Lemma finalClose_cases (screen : ResultScreen.State) (uuid : string) (now : Z)
  (s : App.AppState) :
  AnimatedRoutes.finalClose screen uuid now s = s
  \/ exists action : DecisionStatus,
       AnimatedRoutes.finalClose screen uuid now s
       = App.handleFinish action (Some (ResultScreen.note screen)) uuid now s.
Proof.
  unfold AnimatedRoutes.finalClose, ResultScreen.handleFinalClose.
  destruct (ResultScreen.selectedAction screen) as [a|]; eauto.
Qed.

Lemma render_cases (now : Z) (s : App.AppState) :
  AppView.render now s = s
  \/ exists to : App.Path, AppView.render now s = App.navigate to s.
Proof.
  unfold AppView.render. destruct (App.isLoading s); [auto|].
  unfold AnimatedRoutes.render.
  destruct (AnimatedRoutes.element now s); eauto.
Qed.

Lemma handleNext_cases (text : string) (s : App.AppState) :
  DecisionInputScreen.handleNext text s = s
  \/ DecisionInputScreen.handleNext text s
     = App.navigate App.PathDelay
         (App.setDraftDecision (fun prev => with_text prev text) s).
Proof.
  unfold DecisionInputScreen.handleNext.
  destruct (negb (JsString.truthy (JsString.trim text))); auto.
Qed.

Lemma act_store_mirrors_state (s : App.AppState) (a : Session.Action) :
  Session.store_mirrors_state s ->
  Session.store_mirrors_state (Session.act s a).
Proof.
  unfold Session.store_mirrors_state. intros H.
  destruct a as [ty|tx|m|p|r n1 n2|n| |sc u n|n|p]; cbn [Session.act].
  - exact H.
  - destruct (handleNext_cases tx s) as [-> | ->]; exact H.
  - exact H.
  - destruct (confirmCustom_cases p s) as [-> | ->]; exact H.
  - apply handleStart_stored.
  - unfold App.handleEmergency.
    destruct (App.activeDecision s) as [d|] eqn:E; [|now rewrite E].
    apply getDecision_saveDecision.
  - exact H.
  - destruct (finalClose_cases sc u n s) as [-> | [action ->]]; [exact H|].
    apply getDecision_clearDecision.
  - destruct (render_cases n s) as [-> | [to ->]]; exact H.
  - exact H.
Qed.

(** X6.  If the stored record is the active decision, it still is after
    anything that the user and the timer do, in any order: every
    handler that changes the one changes the other. *)
Theorem store_mirrors_state_always :
  forall (actions : list Session.Action) (s : App.AppState),
    Session.store_mirrors_state s ->
    Session.store_mirrors_state (Session.run s actions).
Proof.
  induction actions as [|a actions IH]; intros s H; [exact H|].
  cbn [Session.run fold_left]. apply IH. now apply act_store_mirrors_state.
Qed.

Lemma store_mirrors_state_always_witness :
  let s := App.first_render ∅ App.PathRoot "u" 0 in
  Session.store_mirrors_state
    (Session.run s
       [Session.GoTo App.PathType; Session.SelectType SHOPPING;
        Session.Next "sneakers"; Session.SelectDelay 5;
        Session.Start "" 1000 1000; Session.Emergency 61000;
        Session.Complete;
        Session.FinalClose
          (ResultScreen.handleSelection CANCELLED ResultScreen.initial)
          "v" 62000]).
Proof.
  intros s. apply store_mirrors_state_always.
  unfold Session.store_mirrors_state. reflexivity.
Defined.

Lemma act_statuses_in_place (s : App.AppState) (a : Session.Action) :
  Session.statuses_in_place s ->
  Session.statuses_in_place (Session.act s a).
Proof.
  unfold Session.statuses_in_place. intros [Hd Ha].
  destruct a as [ty|tx|m|p|r n1 n2|n| |sc u n|n|p]; cbn [Session.act].
  - split; [exact Hd|exact Ha].
  - destruct (handleNext_cases tx s) as [-> | ->]; split; assumption.
  - split; [exact Hd|exact Ha].
  - destruct (confirmCustom_cases p s) as [-> | ->]; split; assumption.
  - split; [exact Hd|].
    intros d. rewrite handleStart_activeDecision.
    intros E. injection E as <-. reflexivity.
  - unfold App.handleEmergency.
    destruct (App.activeDecision s) as [d|] eqn:E; [|now rewrite E].
    split; [exact Hd|].
    cbn [App.activeDecision App.setActiveDecision].
    intros d' E'. injection E' as <-. cbn [with_endTime status].
    now apply Ha.
  - split; [exact Hd|exact Ha].
  - destruct (finalClose_cases sc u n s) as [-> | [action ->]];
      [split; assumption|].
    split; [reflexivity|]. intros d E. discriminate E.
  - destruct (render_cases n s) as [-> | [to ->]]; split; assumption.
  - split; [exact Hd|exact Ha].
Qed.

(** X7.  The program never writes a terminal status.  From a state in
    which the draft is a DRAFT and the active decision, if any, WAITING
    (as after a first render on an empty store), whatever the user and
    the timer do, the draft is a DRAFT and the active decision, if any,
    is WAITING: no record in memory is ever COMPLETED, CANCELLED or
    SNOOZED. *)
Theorem statuses_in_place_always :
  forall (actions : list Session.Action) (s : App.AppState),
    Session.statuses_in_place s ->
    Session.statuses_in_place (Session.run s actions).
Proof.
  induction actions as [|a actions IH]; intros s H; [exact H|].
  cbn [Session.run fold_left]. apply IH. now apply act_statuses_in_place.
Qed.

Lemma statuses_in_place_always_witness :
  let s := App.first_render ∅ App.PathRoot "u" 0 in
  Session.statuses_in_place
    (Session.run s
       [Session.SelectType SHOPPING; Session.Next "sneakers";
        Session.SelectDelay 5; Session.Start "" 1000 1000;
        Session.FinalClose
          (ResultScreen.handleSelection COMPLETED ResultScreen.initial)
          "v" 400000]).
Proof.
  intros s. apply statuses_in_place_always.
  split; [reflexivity|]. intros a E. discriminate E.
Defined.

(** ** The routes *)

(** X8.  A redirect is never followed by another: after one render,
    with the [Navigate] it may have carried out, the route shows a
    screen, whatever the clock reads then. *)
Theorem render_settles :
  forall (now now2 : Z) (s : App.AppState) (to : App.Path),
    AnimatedRoutes.element now2 (AnimatedRoutes.render now s)
    <> AnimatedRoutes.Navigate to.
Proof.
  intros now now2 s to.
  unfold AnimatedRoutes.render, AnimatedRoutes.element.
  destruct (App.location s) eqn:Hl;
    destruct (App.activeDecision s) as [a|] eqn:Ha;
    try destruct (AnimatedRoutes.is_WAITING (status a)) eqn:Hw;
    try destruct (now >=? endTime a)%Z;
    cbn [App.navigate App.location App.activeDecision];
    rewrite ?Hl, ?Ha, ?Hw; discriminate.
Qed.

(** X9.  Once a decision is finished, the waiting and the result paths
    lead back to the landing screen: a render on either redirects to
    the root path, which shows the landing screen. *)
Theorem finished_paths_lead_home :
  forall (action : DecisionStatus) (note : option string) (uuid : string)
         (t now now2 : Z) (s : App.AppState) (path : App.Path),
    path = App.PathWaiting \/ path = App.PathResult ->
    let s' := AnimatedRoutes.render now
                (App.navigate path (App.handleFinish action note uuid t s)) in
    App.location s' = App.PathRoot
    /\ AnimatedRoutes.element now2 s' = AnimatedRoutes.LandingScreen.
Proof.
  intros action note uuid t now now2 s path [-> | ->] s'; subst s';
    split; reflexivity.
Qed.

Lemma finished_paths_lead_home_witness :
  let s := App.first_render ∅ App.PathResult "u" 0 in
  let s' := AnimatedRoutes.render 2
              (App.navigate App.PathResult
                 (App.handleFinish SNOOZED None "v" 1 s)) in
  App.location s' = App.PathRoot
  /\ AnimatedRoutes.element 3 s' = AnimatedRoutes.LandingScreen.
Proof.
  intros s.
  apply (finished_paths_lead_home SNOOZED None "v" 1 2 3 s App.PathResult).
  right. reflexivity.
Defined.

(** X10.  Only the root, waiting and result paths look at the active
    decision.  A page opened on any other path, with a WAITING record in
    the store, loads the record and stays on that path: no render
    redirects it, whatever the clock reads. *)
Theorem other_paths_do_not_redirect :
  forall (storage : gmap string string) (d : Decision) (hash : App.Path)
         (uuid : string) (t0 now0 now : Z),
    Storage.getDecision storage = Storage.Returned (Some d) ->
    hash <> App.PathRoot -> hash <> App.PathWaiting ->
    hash <> App.PathResult ->
    exists s1 : App.AppState,
      App.initialize
        (AnimatedRoutes.render now0 (App.first_render storage hash uuid t0))
      = Some s1
      /\ App.activeDecision s1 = Some d
      /\ App.location (AnimatedRoutes.render now s1) = hash.
Proof.
  intros storage d hash uuid t0 now0 now Hst H1 H2 H3.
  assert (Hr : AnimatedRoutes.render now0 (App.first_render storage hash uuid t0)
               = App.first_render storage hash uuid t0).
  { destruct hash; try congruence; reflexivity. }
  rewrite Hr, (initialize_saved _ d) by exact Hst.
  eexists. split; [reflexivity|]. split; [reflexivity|].
  destruct hash; try congruence; reflexivity.
Qed.

Lemma other_paths_do_not_redirect_witness :
  let d := {| id := "u"; type := SHOPPING; text := "sneakers";
              reflectionText := Some ""; startTime := 0;
              durationMinutes := 5; endTime := 300000; status := WAITING;
              createdAt := 0; finalNote := None |} in
  exists s1 : App.AppState,
    App.initialize
      (AnimatedRoutes.render 400000
         (App.first_render (Storage.saveDecision d ∅) App.PathType "v" 400000))
    = Some s1
    /\ App.activeDecision s1 = Some d
    /\ App.location (AnimatedRoutes.render 400001 s1) = App.PathType.
Proof.
  intros d.
  apply (other_paths_do_not_redirect (Storage.saveDecision d ∅) d
           App.PathType "v" 400000 400000 400001).
  - apply getDecision_saveDecision.
  - discriminate.
  - discriminate.
  - discriminate.
Defined.

(** ** The waiting screen: what a tick shows *)

(** X11.  The time left that a tick shows, for a positive [diff] in
    milliseconds, has minutes and seconds below 60, no negative part,
    and accounts for [diff] up to the last second: the three parts make
    a whole number of seconds that is at most [diff] and less than a
    second under it. *)
Theorem timeLeft_of_bounds :
  forall diff : Z,
    0 < diff ->
    let t := WaitingScreen.timeLeft_of diff in
    0 <= WaitingScreen.h t
    /\ 0 <= WaitingScreen.m t < 60
    /\ 0 <= WaitingScreen.s t < 60
    /\ (WaitingScreen.h t * 3600 + WaitingScreen.m t * 60
        + WaitingScreen.s t) * 1000 <= diff
    /\ diff < (WaitingScreen.h t * 3600 + WaitingScreen.m t * 60
               + WaitingScreen.s t) * 1000 + 1000.
Proof.
  intros diff Hpos. exact (timeLeft_of_bracket diff Hpos).
Qed.

Lemma timeLeft_of_bounds_witness :
  let t := WaitingScreen.timeLeft_of 3725999 in
  WaitingScreen.h t = 1 /\ WaitingScreen.m t = 2 /\ WaitingScreen.s t = 5
  /\ 0 <= WaitingScreen.m t < 60.
Proof.
  intros t.
  destruct (timeLeft_of_bounds 3725999 ltac:(lia)) as [_ [Hm _]].
  repeat split; try reflexivity; apply Hm.
Defined.

(** X12.  Between the start and the end of a decision, the end
    excluded, the progress that a tick computes is a finite number from
    0 up to, but not reaching, 100. *)
Theorem progress_of_in_range :
  forall (d : Decision) (now : Z),
    startTime d <= now -> now < endTime d ->
    exists q : Q,
      WaitingScreen.progress_of (endTime d - now) (endTime d - startTime d)
      = JsNum.Finite q
      /\ (0 <= q)%Q /\ (q < 100)%Q.
Proof.
  intros d now Hs He.
  unfold WaitingScreen.progress_of, JsNum.div.
  assert (E : (endTime d - startTime d =? 0)%Z = false)
    by (apply Z.eqb_neq; lia).
  rewrite E. cbn [JsNum.mul JsNum.sub JsNum.add JsNum.neg JsNum.of_Z].
  eexists. split; [reflexivity|].
  set (a := endTime d - now). set (b := endTime d - startTime d).
  assert (Ha : 0 < a) by (subst a; lia).
  assert (Hab : a <= b) by (subst a b; lia).
  assert (Hb : (0 < inject_Z b)%Q).
  { change 0%Q with (inject_Z 0). rewrite <- Zlt_Qlt. lia. }
  assert (Hq1 : (inject_Z a / inject_Z b <= 1)%Q).
  { apply Qle_shift_div_r; [exact Hb|].
    rewrite Qmult_1_l, <- Zle_Qle. exact Hab. }
  assert (Hq0 : (0 < inject_Z a / inject_Z b)%Q).
  { apply Qlt_shift_div_l; [exact Hb|].
    rewrite Qmult_0_l. change 0%Q with (inject_Z 0).
    rewrite <- Zlt_Qlt. exact Ha. }
  change (inject_Z 100) with 100%Q.
  set (q := (inject_Z a / inject_Z b)%Q) in *.
  split; lra.
Qed.

Lemma progress_of_in_range_witness :
  let d := {| id := "u"; type := SHOPPING; text := "sneakers";
              reflectionText := Some ""; startTime := 0;
              durationMinutes := 5; endTime := 300000; status := WAITING;
              createdAt := 0; finalNote := None |} in
  exists q : Q,
    WaitingScreen.progress_of (endTime d - 75000) (endTime d - startTime d)
    = JsNum.Finite q
    /\ (0 <= q)%Q /\ (q < 100)%Q.
Proof.
  intros d. apply (progress_of_in_range d 75000); cbn; lia.
Defined.

(** X13.  A division by zero throws nothing: when the decision starts
    and ends at the same time and the clock reads less than that, the
    tick sets [progress] to minus infinity and has no other effect. *)
Theorem tick_on_zero_duration :
  forall (st : WaitingScreen.State) (d : Decision) (seen : bool) (now : Z)
         (granted : bool),
    WaitingScreen.interval st = Some (WaitingScreen.mkInterval d seen) ->
    startTime d = endTime d -> now < endTime d ->
    WaitingScreen.progress (fst (WaitingScreen.tick now granted st))
    = JsNum.NegInfinity
    /\ snd (WaitingScreen.tick now granted st) = [].
Proof.
  intros st d seen now granted Hi Hz Hlt.
  rewrite (tick_running st _ now granted Hi) by exact Hlt.
  cbn [fst snd WaitingScreen.progress WaitingScreen.seen_decision].
  split; [|reflexivity].
  rewrite Hz, Z.sub_diag.
  unfold WaitingScreen.progress_of, JsNum.div.
  assert (E : (0 <? endTime d - now)%Z = true) by (apply Z.ltb_lt; lia).
  cbn [Z.eqb]. rewrite E. reflexivity.
Qed.

Lemma tick_on_zero_duration_witness :
  let d := {| id := "u"; type := OTHER; text := "";
              reflectionText := Some ""; startTime := 5000;
              durationMinutes := 0; endTime := 5000; status := WAITING;
              createdAt := 0; finalNote := None |} in
  WaitingScreen.progress
    (fst (WaitingScreen.tick 4000 false (WaitingScreen.mount (Some d))))
  = JsNum.NegInfinity.
Proof.
  intros d.
  apply (tick_on_zero_duration (WaitingScreen.mount (Some d)) d false 4000
           false); [reflexivity|reflexivity|cbn; lia].
Defined.

(** X14.  Before the end time nothing fires: on a fresh screen, ticks
    that all come before the end time of its decision, however many,
    sound no alarm, show no notification and do not complete; the flag
    stays unset and the interval keeps running on the decision. *)
Theorem ticks_before_the_end_are_silent :
  forall (d : Decision) (times : list Z) (granted : bool),
    Forall (fun now => now < endTime d) times ->
    let r := WaitingScreen.run (WaitingScreen.mount (Some d))
               (map (fun now => WaitingScreen.Tick now granted) times) in
    snd r = []
    /\ WaitingScreen.notified (fst r) = false
    /\ WaitingScreen.interval (fst r)
       = Some (WaitingScreen.mkInterval d false).
Proof.
  intros d times granted Hall.
  assert (G : forall st : WaitingScreen.State,
             WaitingScreen.notified st = false ->
             WaitingScreen.interval st
             = Some (WaitingScreen.mkInterval d false) ->
             let r := WaitingScreen.run st
                        (map (fun now => WaitingScreen.Tick now granted) times) in
             snd r = []
             /\ WaitingScreen.notified (fst r) = false
             /\ WaitingScreen.interval (fst r)
                = Some (WaitingScreen.mkInterval d false)).
  { induction Hall as [|now times Hnow Hall IH]; intros st Hn Hi.
    - cbn. auto.
    - cbn [map WaitingScreen.run WaitingScreen.step].
      rewrite (tick_running st _ now granted Hi) by exact Hnow.
      match goal with
      | |- context [WaitingScreen.run ?st' _] =>
          specialize (IH st' Hn Hi)
      end.
      cbn zeta in IH.
      destruct (WaitingScreen.run _ _) as [st2 out2].
      cbn [fst snd] in *. cbn [app]. exact IH. }
  apply G; reflexivity.
Qed.

Lemma ticks_before_the_end_are_silent_witness :
  let d := {| id := "u"; type := SHOPPING; text := "sneakers";
              reflectionText := Some ""; startTime := 0;
              durationMinutes := 5; endTime := 300000; status := WAITING;
              createdAt := 0; finalNote := None |} in
  snd (WaitingScreen.run (WaitingScreen.mount (Some d))
         (map (fun now => WaitingScreen.Tick now true) [1000; 2000; 299999]))
  = [].
Proof.
  intros d.
  apply (ticks_before_the_end_are_silent d [1000; 2000; 299999] true).
  repeat constructor.
Defined.

(** ** The duration picker *)

Lemma validate_error (st : CustomDurationPicker.State) :
  CustomDurationPicker.error (CustomDurationPicker.validate st) = None
  <-> 1 <= CustomDurationPicker.calculateMinutes st
           <= CustomDurationPicker.MAX_MINUTES.
Proof.
  unfold CustomDurationPicker.validate. cbn [CustomDurationPicker.error].
  destruct (CustomDurationPicker.calculateMinutes st
            >? CustomDurationPicker.MAX_MINUTES)%Z eqn:E1.
  - rewrite Z.gtb_ltb in E1. apply Z.ltb_lt in E1.
    split; [discriminate|lia].
  - rewrite Z.gtb_ltb in E1. apply Z.ltb_ge in E1.
    destruct (CustomDurationPicker.calculateMinutes st <? 1)%Z eqn:E2.
    + apply Z.ltb_lt in E2. split; [discriminate|lia].
    + apply Z.ltb_ge in E2. split; [lia|reflexivity].
Qed.

Lemma calculateMinutes_validate (st : CustomDurationPicker.State) :
  CustomDurationPicker.calculateMinutes (CustomDurationPicker.validate st)
  = CustomDurationPicker.calculateMinutes st.
Proof. reflexivity. Qed.

Lemma edits_settled (edits : list CustomDurationPicker.Edit) :
  forall st : CustomDurationPicker.State,
    CustomDurationPicker.error st
    = CustomDurationPicker.error (CustomDurationPicker.validate st) ->
    CustomDurationPicker.error
      (fold_left CustomDurationPicker.edit edits st)
    = CustomDurationPicker.error
        (CustomDurationPicker.validate
           (fold_left CustomDurationPicker.edit edits st)).
Proof.
  induction edits as [|e edits IH]; intros st H; [exact H|].
  cbn [fold_left]. apply IH. destruct e; reflexivity.
Qed.

(** X15.  Whatever the user sets in the picker, in any order, starting
    from the picker as it opens, the Simpan button sets the duration of
    the draft to the total and goes on to the reflection path when the
    total is between 1 and 7 * 24 * 60 minutes, and changes nothing
    otherwise. *)
Theorem picker_confirms_valid_totals_only :
  forall (edits : list CustomDurationPicker.Edit) (s : App.AppState),
    let p := fold_left CustomDurationPicker.edit edits
               CustomDurationPicker.initial in
    let total := CustomDurationPicker.calculateMinutes p in
    DelaySelectionScreen.confirmCustom p s
    = if ((1 <=? total) && (total <=? 10080))%Z
      then DelaySelectionScreen.handleSelect total s
      else s.
Proof.
  intros edits s p total.
  assert (Hs := edits_settled edits CustomDurationPicker.initial eq_refl).
  fold p in Hs.
  assert (Hv := validate_error p). rewrite <- Hs in Hv.
  change CustomDurationPicker.MAX_MINUTES with 10080 in Hv. fold total in Hv.
  unfold DelaySelectionScreen.confirmCustom, CustomDurationPicker.handleConfirm.
  fold total.
  destruct ((1 <=? total) && (total <=? 10080))%Z eqn:E.
  - apply andb_true_iff in E. destruct E as [E1 E2].
    apply Z.leb_le in E1. apply Z.leb_le in E2.
    rewrite (proj2 Hv) by lia. reflexivity.
  - destruct (CustomDurationPicker.error p) eqn:Ep; [reflexivity|].
    destruct (proj1 Hv eq_refl) as [H1 H2].
    apply Z.leb_le in H1. apply Z.leb_le in H2.
    rewrite H1, H2 in E. discriminate E.
Qed.

(** X16.  What the picker accepts, by unit: the validation leaves no
    error exactly for 1 to 10080 minutes, 1 to 168 hours, and 1 to 7
    days. *)
Theorem picker_bounds_by_unit :
  forall (v : Z) (u : CustomDurationPicker.Unit) (e : option string),
    CustomDurationPicker.error
      (CustomDurationPicker.validate (CustomDurationPicker.mkState v u e))
    = None
    <-> 1 <= v <= match u with
                  | CustomDurationPicker.minutes => 10080
                  | CustomDurationPicker.hours => 168
                  | CustomDurationPicker.days => 7
                  end.
Proof.
  intros v u e. rewrite validate_error.
  unfold CustomDurationPicker.calculateMinutes, CustomDurationPicker.MAX_MINUTES.
  cbn [CustomDurationPicker.unit CustomDurationPicker.value].
  destruct u; lia.
Qed.

(** ** The input screen *)

Lemma trimStart_blank (s : string) :
  JsString.blank s = true -> JsString.trimStart s = EmptyString.
Proof.
  induction s as [|c r IH]; [reflexivity|].
  cbn [JsString.blank JsString.trimStart]. intros H.
  apply andb_true_iff in H. destruct H as [Hc Hr].
  rewrite Hc. now apply IH.
Qed.

Lemma trimEnd_not_white (c : ascii) (r : string) :
  JsString.is_white_space c = false ->
  JsString.trimEnd (String c r) <> EmptyString.
Proof.
  intros Hc. cbn [JsString.trimEnd].
  destruct (JsString.trimEnd r); [rewrite Hc|]; discriminate.
Qed.

Lemma trimStart_not_blank (s : string) :
  JsString.blank s = false ->
  exists (c : ascii) (r : string),
    JsString.trimStart s = String c r /\ JsString.is_white_space c = false.
Proof.
  induction s as [|c r IH]; [discriminate|].
  cbn [JsString.blank JsString.trimStart]. intros H.
  destruct (JsString.is_white_space c) eqn:Hc.
  - cbn [andb] in H. now apply IH.
  - exists c, r. split; [reflexivity|exact Hc].
Qed.

Lemma truthy_trim (s : string) :
  JsString.truthy (JsString.trim s) = negb (JsString.blank s).
Proof.
  unfold JsString.truthy, JsString.trim.
  destruct (JsString.blank s) eqn:Hb.
  - now rewrite trimStart_blank.
  - destruct (trimStart_not_blank s Hb) as [c [r [-> Hc]]].
    destruct (JsString.trimEnd (String c r)) eqn:E; [|reflexivity].
    now apply trimEnd_not_white in E.
Qed.

Lemma handleNext_by_blank (text : string) (s : App.AppState) :
  DecisionInputScreen.handleNext text s
  = if JsString.blank text then s
    else App.mkAppState (App.localStorage s) (App.console s) App.PathDelay
           (App.activeDecision s)
           (with_text (App.draftDecision s) text) (App.isLoading s).
Proof.
  unfold DecisionInputScreen.handleNext.
  rewrite truthy_trim, Bool.negb_involutive.
  destruct (JsString.blank text); reflexivity.
Qed.

(** X17.  The input screen refuses exactly the texts that are nothing
    but white space, the empty text among them, and changes nothing
    then; any other text goes into the draft as it was typed, white
    space at its ends included, with the rest of the draft, the active
    decision and the store as they were, and the program goes on to
    the delay path. *)
Theorem handleNext_refuses_blank_texts_only :
  forall (text : string) (s : App.AppState),
    (JsString.blank text = true ->
     DecisionInputScreen.handleNext text s = s)
    /\ (JsString.blank text = false ->
        DecisionInputScreen.handleNext text s
        = App.mkAppState (App.localStorage s) (App.console s) App.PathDelay
            (App.activeDecision s)
            (with_text (App.draftDecision s) text) (App.isLoading s)).
Proof.
  intros text s. rewrite handleNext_by_blank.
  split; intros ->; reflexivity.
Qed.

(** ** The result screen *)



(** ** The store *)

(** X19.  The store is one key: saving and clearing leave every other
    key of [localStorage] as it was. *)
Theorem storage_touches_one_key :
  forall (d : Decision) (ls : gmap string string) (k : string),
    k <> Storage.STORAGE_KEY ->
    Storage.saveDecision d ls !! k = ls !! k
    /\ Storage.clearDecision ls !! k = ls !! k.
Proof.
  intros d ls k Hk. unfold Storage.saveDecision, Storage.clearDecision.
  split.
  - apply lookup_insert_ne. congruence.
  - apply lookup_delete_ne. congruence.
Qed.

Lemma storage_touches_one_key_witness :
  let d := Storage.createDraftDecision "u" 0 in
  let ls : gmap string string := <["theme" := "dark"]> ∅ in
  Storage.saveDecision d ls !! "theme" = ls !! "theme"
  /\ Storage.clearDecision ls !! "theme" = ls !! "theme".
Proof.
  intros d ls. apply (storage_touches_one_key d ls "theme"). discriminate.
Defined.

(** X20.  Records are told apart by their stored text: saving two
    different decisions leaves two different stores. *)
Theorem saveDecision_tells_records_apart :
  forall (d1 d2 : Decision) (ls : gmap string string),
    d1 <> d2 -> Storage.saveDecision d1 ls <> Storage.saveDecision d2 ls.
Proof.
  intros d1 d2 ls Hne H. apply Hne.
  assert (H1 := getDecision_saveDecision d1 ls).
  rewrite H, getDecision_saveDecision in H1. congruence.
Qed.

Lemma saveDecision_tells_records_apart_witness :
  Storage.saveDecision (Storage.createDraftDecision "u" 0) ∅
  <> Storage.saveDecision (Storage.createDraftDecision "u" 1) ∅.
Proof.
  apply saveDecision_tells_records_apart. intros H. discriminate H.
Defined.

(** ** From the first screen to the waiting screen *)

(** X22.  What the user enters is what is committed: after a type is
    selected, a text that is not blank is entered, a delay is selected
    and the timer is started, with one clock reading, the active and
    stored decision has that type, text, delay and reflection, the
    [id] and [createdAt] of the draft, starts at the reading and ends
    [minutes * 60000] later, and the program is on the waiting path. *)
Theorem draft_flow_commits_what_was_entered :
  forall (ty : DecisionType) (tx : string) (minutes : Z) (reflection : string)
         (now : Z) (s : App.AppState),
    JsString.blank tx = false ->
    let s' := Session.run s
                [Session.SelectType ty; Session.Next tx;
                 Session.SelectDelay minutes;
                 Session.Start reflection now now] in
    exists d : Decision,
      App.activeDecision s' = Some d
      /\ Storage.getDecision (App.localStorage s') = Storage.Returned (Some d)
      /\ App.location s' = App.PathWaiting
      /\ d = {| id := id (App.draftDecision s);
                type := ty;
                text := tx;
                reflectionText := Some reflection;
                startTime := now;
                durationMinutes := minutes;
                endTime := now + minutes * 60000;
                status := WAITING;
                createdAt := createdAt (App.draftDecision s);
                finalNote := finalNote (App.draftDecision s) |}.
Proof.
  intros ty tx minutes reflection now s Hb s'. subst s'.
  cbn [Session.run fold_left Session.act].
  rewrite handleNext_by_blank, Hb.
  eexists. split; [apply handleStart_activeDecision|].
  split; [rewrite handleStart_stored, handleStart_activeDecision; reflexivity|].
  split; [reflexivity|].
  cbn. f_equal. lia.
Qed.

Lemma draft_flow_commits_what_was_entered_witness :
  let s := App.first_render ∅ App.PathType "u" 7 in
  exists d : Decision,
    App.activeDecision
      (Session.run s
         [Session.SelectType SHOPPING; Session.Next "sneakers";
          Session.SelectDelay 5; Session.Start "" 1000 1000]) = Some d
    /\ text d = "sneakers"
    /\ endTime d = 301000.
Proof.
  intros s.
  destruct (draft_flow_commits_what_was_entered SHOPPING "sneakers" 5 ""
              1000 s) as [d [Ha [_ [_ Hd]]]].
  - reflexivity.
  - exists d. split; [exact Ha|]. rewrite Hd. split; reflexivity.
Defined.

(** ** The alarm, over all that can happen to the waiting screen *)

Lemma flag_set_useEffect (st : WaitingScreen.State) :
  WaitingScreen.notified st = true ->
  WaitingScreen.flag_set (WaitingScreen.useEffect st).
Proof.
  intros Hn. split; [exact Hn|].
  unfold WaitingScreen.useEffect. cbn [WaitingScreen.interval].
  intros c Hc. destruct (WaitingScreen.decision st); [|discriminate Hc].
  injection Hc as <-. exact Hn.
Qed.

Lemma flag_unset_useEffect (st : WaitingScreen.State) :
  WaitingScreen.notified st = false ->
  WaitingScreen.flag_unset (WaitingScreen.useEffect st).
Proof.
  intros Hn. split; [exact Hn|].
  unfold WaitingScreen.useEffect. cbn [WaitingScreen.interval].
  intros c Hc. destruct (WaitingScreen.decision st); [|discriminate Hc].
  injection Hc as <-. exact Hn.
Qed.

Lemma step_flag_set (st : WaitingScreen.State) (e : WaitingScreen.Event) :
  WaitingScreen.flag_set st ->
  WaitingScreen.flag_set (fst (WaitingScreen.step st e))
  /\ WaitingScreen.alarms (snd (WaitingScreen.step st e)) = 0%nat.
Proof.
  intros [Hn Hseen]. destruct e as [now granted|d'].
  - cbn [WaitingScreen.step]. unfold WaitingScreen.tick.
    destruct (WaitingScreen.interval st) as [c|] eqn:Hi.
    + rewrite (Hseen c eq_refl). cbn [negb].
      destruct (endTime (WaitingScreen.seen_decision c) - now <=? 0)%Z;
        cbn [fst snd].
      * split; [|reflexivity]. split; [exact Hn|]. intros c' Hc'.
        discriminate Hc'.
      * split; [|reflexivity]. split; [exact Hn|].
        cbn [WaitingScreen.interval]. intros c' Hc'. injection Hc' as <-.
        exact (Hseen c eq_refl).
    + cbn [fst snd]. split; [|reflexivity]. split; [exact Hn|].
      rewrite Hi. intros c Hc. discriminate Hc.
  - cbn [WaitingScreen.step fst snd]. split; [|reflexivity].
    now apply flag_set_useEffect.
Qed.

Lemma step_flag_unset (st : WaitingScreen.State) (e : WaitingScreen.Event) :
  WaitingScreen.flag_unset st ->
  (WaitingScreen.flag_unset (fst (WaitingScreen.step st e))
   /\ WaitingScreen.alarms (snd (WaitingScreen.step st e)) = 0%nat)
  \/ (WaitingScreen.flag_set (fst (WaitingScreen.step st e))
      /\ WaitingScreen.alarms (snd (WaitingScreen.step st e)) = 1%nat).
Proof.
  intros [Hn Hseen]. destruct e as [now granted|d'].
  - cbn [WaitingScreen.step]. unfold WaitingScreen.tick.
    destruct (WaitingScreen.interval st) as [c|] eqn:Hi.
    + rewrite (Hseen c eq_refl). cbn [negb].
      destruct (endTime (WaitingScreen.seen_decision c) - now <=? 0)%Z;
        cbn [fst snd].
      * right. split; [|destruct granted; reflexivity].
        unfold WaitingScreen.setNotified_true, WaitingScreen.clearInterval.
        cbn [WaitingScreen.notified]. rewrite Hn.
        now apply flag_set_useEffect.
      * left. split; [|reflexivity]. split; [exact Hn|].
        cbn [WaitingScreen.interval]. intros c' Hc'. injection Hc' as <-.
        exact (Hseen c eq_refl).
    + left. cbn [fst snd]. split; [|reflexivity]. split; [exact Hn|].
      rewrite Hi. intros c Hc. discriminate Hc.
  - left. cbn [WaitingScreen.step fst snd]. split; [|reflexivity].
    now apply flag_unset_useEffect.
Qed.

Lemma run_flag_unset (es : list WaitingScreen.Event) :
  forall st : WaitingScreen.State,
    WaitingScreen.flag_unset st ->
    (WaitingScreen.alarms (snd (WaitingScreen.run st es)) <= 1)%nat.
Proof.
  induction es as [|e es IH]; intros st H; [cbn; lia|].
  rewrite run_cons, alarms_app.
  destruct (step_flag_unset st e H) as [[H' ->] | [[Hn Hseen] ->]].
  - specialize (IH _ H'). lia.
  - destruct (run_after_notified es _ Hn Hseen) as [-> _]. lia.
Qed.

(** X23.  A mounted waiting screen sounds the alarm at most once,
    whatever comes to it: ticks at any times, early or late, renders
    with any decision or none, in any order and number. *)
Theorem at_most_one_alarm_per_mount :
  forall (decision : option Decision) (es : list WaitingScreen.Event),
    (WaitingScreen.alarms
       (snd (WaitingScreen.run (WaitingScreen.mount decision) es)) <= 1)%nat.
Proof.
  intros decision es. apply run_flag_unset.
  unfold WaitingScreen.mount. now apply flag_unset_useEffect.
Qed.

Lemma visits_bound (d : Decision) (es : list WaitingScreen.RouteEvent) :
  (WaitingScreen.alarms (WaitingScreen.visits d None es)
   <= List.length (List.filter WaitingScreen.is_enter es))%nat
  /\ (forall st : WaitingScreen.State,
         WaitingScreen.flag_unset st ->
         (WaitingScreen.alarms (WaitingScreen.visits d (Some st) es)
          <= 1 + List.length (List.filter WaitingScreen.is_enter es))%nat)
  /\ (forall st : WaitingScreen.State,
         WaitingScreen.flag_set st ->
         (WaitingScreen.alarms (WaitingScreen.visits d (Some st) es)
          <= List.length (List.filter WaitingScreen.is_enter es))%nat).
Proof.
  induction es as [|e es [IHn [IHu IHs]]].
  - cbn. repeat split; intros; lia.
  - assert (Hm : WaitingScreen.flag_unset (WaitingScreen.mount (Some d))).
    { unfold WaitingScreen.mount. now apply flag_unset_useEffect. }
    destruct e as [| |e];
      cbn [WaitingScreen.visits List.filter WaitingScreen.is_enter List.length].
    + specialize (IHu _ Hm). repeat split; intros; lia.
    + repeat split; intros; lia.
    + split; [exact IHn|]. split; intros st H.
      * destruct (WaitingScreen.step st e) as [st' out] eqn:Hstep.
        rewrite alarms_app.
        destruct (step_flag_unset st e H) as [[H' Ha] | [H' Ha]];
          rewrite Hstep in H', Ha; cbn [fst snd] in H', Ha; rewrite Ha.
        -- specialize (IHu _ H'). lia.
        -- specialize (IHs _ H'). lia.
      * destruct (WaitingScreen.step st e) as [st' out] eqn:Hstep.
        rewrite alarms_app.
        destruct (step_flag_set st e H) as [H' Ha].
        rewrite Hstep in H', Ha. cbn [fst snd] in H', Ha. rewrite Ha.
        specialize (IHs _ H'). lia.
Qed.

(** X24.  While a decision is active the alarm sounds at most as often
    as the waiting screen is entered, whatever happens on the waiting
    path and however often it is left and entered again. *)
Theorem alarms_bounded_by_entries :
  forall (d : Decision) (es : list WaitingScreen.RouteEvent),
    (WaitingScreen.alarms (WaitingScreen.visits d None es)
     <= List.length (List.filter WaitingScreen.is_enter es))%nat.
Proof.
  intros d es. exact (proj1 (visits_bound d es)).
Qed.

(** ** The durations that the delay screen hands on *)

(** X25.  Every duration that the delay screen writes into the draft is
    between 1 and 7 * 24 * 60 minutes: each of its four tiles is, and
    the Simpan button of the picker, whatever was set in the picker
    before, either changes nothing or writes a total in that range. *)
Theorem delay_screen_durations_in_range :
  (forall m : Z,
      In m DelaySelectionScreen.presets ->
      1 <= m <= CustomDurationPicker.MAX_MINUTES)
  /\ (forall (edits : list CustomDurationPicker.Edit) (s : App.AppState),
         let p := fold_left CustomDurationPicker.edit edits
                    CustomDurationPicker.initial in
         DelaySelectionScreen.confirmCustom p s = s
         \/ 1 <= durationMinutes
                   (App.draftDecision (DelaySelectionScreen.confirmCustom p s))
              <= CustomDurationPicker.MAX_MINUTES).
Proof.
  split.
  - intros m Hin. unfold CustomDurationPicker.MAX_MINUTES.
    cbn in Hin. repeat destruct Hin as [<-|Hin]; lia.
  - intros edits s p.
    assert (Hs := edits_settled edits CustomDurationPicker.initial eq_refl).
    fold p in Hs.
    unfold DelaySelectionScreen.confirmCustom,
      CustomDurationPicker.handleConfirm.
    destruct (CustomDurationPicker.error p) eqn:Ep; [left; reflexivity|].
    right. cbn [DelaySelectionScreen.handleSelect App.navigate
                App.setDraftDecision App.draftDecision with_durationMinutes
                durationMinutes].
    apply validate_error. now rewrite <- Hs.
Qed.
